(** * YandexDownloader: the concurrent range-download engine of YandexCLI.py

    A shallow embedding of class [YandexDiskDownloader] and the properties
    of its chunk plan, chunk fetcher, merge step and orchestrator.

    Conventions of the embedding.
    - Python [int] is [Z]; [//] is floor division, i.e. [Z.div].
    - The file system is a finite map from paths to contents
      ([gmap string (list byte)]); [open(p, "wb")] binds [p] to the empty
      content, [write] appends, [os.remove] deletes the binding.  Opening
      and writing are taken to succeed (the download directory is created
      by the command-line entry point before the downloader runs).
    - The network is a parameter ([env]): what the API request, the HEAD
      probe and each streamed GET answer, including the exceptions they
      raise and the point of the body stream at which they raise them.
    - Exceptions are values of [exn]; the code runs in a state and
      exception monad [M] over [world] (files, progress bar, trace).
    - [print] and the HTTP requests are recorded as events in a trace;
      the text of the printed messages is not modelled.
    - The worker pool runs its tasks to completion one at a time, in a
      completion order picked by an arbitrary scheduler of [env].  *)

From stdpp Require Import base numbers list list_numbers strings pretty gmap fin_maps sorting.
From Stdlib Require Import Strings.Ascii Strings.Byte.

Open Scope string_scope.
Open Scope list_scope.
Open Scope Z_scope.

(** ** Exceptions *)

(** The exception classes that occur in the program.  All of them derive
    from Python's [Exception]. *)
Inductive exn : Type :=
  | RequestException (detail : string)  (* requests.RequestException and subclasses *)
  | ConnectionError (detail : string)   (* the builtin one, raised at line 116 *)
  | FileNotFoundError (path : string)   (* raised at line 73 *)
  | ZeroDivisionError                   (* file_size // 0 *)
  | ValueError (detail : string)        (* int(...) of a malformed header, max_workers <= 0 *)
  | KeyError (key : string)             (* response.json()["href"] *)
  | OtherException (detail : string).   (* any other subclass of Exception *)

(** [isinstance(e, requests.RequestException)] *)
Definition is_RequestException (e : exn) : bool :=
  match e with RequestException _ => true | _ => false end.

(** [isinstance(e, Exception)] *)
Definition is_Exception (e : exn) : bool :=
  match e with
  | RequestException _ | ConnectionError _ | FileNotFoundError _
  | ZeroDivisionError | ValueError _ | KeyError _ | OtherException _ => true
  end.

Inductive result (A : Type) : Type :=
  | Ok (a : A)
  | Raise (e : exn).
Arguments Ok {A} a.
Arguments Raise {A} e.

(** ** The world: files, progress bar, trace *)

Abbreviation bytes := (list byte).

Inductive event : Type :=
  | EvApiGet (url : string)                        (* session.get(api_url) *)
  | EvHead (url : string)                          (* session.head(download_url) *)
  | EvStreamGet (url : string) (range : option (Z * Z))
      (* session.get(url, stream=True), with header Range: bytes=start-end when given *)
  | PrintPartError (part_path : string) (e : exn)  (* line 58 *)
  | PrintMerging (num_parts : Z) (final_path : string)  (* line 67 *)
  | PrintCleaning                                  (* line 78 *)
  | PrintFallback                                  (* line 92 *)
  | PrintDownloading (file_name : string) (file_size num_threads : Z)  (* line 96 *)
  | PrintDownloadComplete                          (* line 119 *)
  | PrintError (e : exn)                           (* line 122 *)
  | PrintUnexpected (e : exn)                      (* line 124 *)
  | PrintSimpleComplete.                           (* line 136 *)

Record world : Type := World {
  fs : gmap string bytes;   (* the files on disk *)
  pbar : Z;                 (* the counter [n] of the job's tqdm bar *)
  trace : list event        (* requests and printed lines, oldest first *)
}.

(** ** The state and exception monad *)

Definition M (A : Type) : Type := world → result A * world.

#[global] Instance M_ret : MRet M := λ A a w, (Ok a, w).
#[global] Instance M_bind : MBind M := λ A B f m w,
  match m w with
  | (Ok a, w') => f a w'
  | (Raise e, w') => (Raise e, w')
  end.

Definition raise {A} (e : exn) : M A := λ w, (Raise e, w).

(** The empty branch of a conditional. *)
Definition pass : M unit := mret ().

(** [try: body  except <classes accepted by handler>: handler e] *)
Definition try_except {A} (body : M A) (handler : exn → option (M A)) : M A :=
  λ w, match body w with
       | (Ok a, w') => (Ok a, w')
       | (Raise e, w') =>
           match handler e with
           | Some h => h w'
           | None => (Raise e, w')
           end
       end.

(** [try: body  finally: cleanup] *)
Definition try_finally {A} (body : M A) (cleanup : M unit) : M A :=
  λ w, match body w with
       | (r, w') =>
           match cleanup w' with
           | (Ok _, w'') => (r, w'')
           | (Raise e, w'') => (Raise e, w'')
           end
       end.

(** [for x in l: body x] *)
Fixpoint for_each {A} (l : list A) (body : A → M unit) : M unit :=
  match l with
  | [] => mret ()
  | x :: l' => body x ;; for_each l' body
  end.

(** A future: the task runs, its outcome (value or exception) is stored. *)
Definition capture {A} (m : M A) : M (result A) :=
  λ w, match m w with (r, w') => (Ok r, w') end.

(** [future.result()] *)
Definition future_result {A} (r : result A) : M A :=
  match r with Ok a => mret a | Raise e => raise e end.

(** ** Primitive effects *)

Definition emit (ev : event) : M unit :=
  λ w, (Ok (), World (fs w) (pbar w) (trace w ++ [ev])).

(** [open(path, "wb")]: creates or truncates *)
Definition open_wb (path : string) : M unit :=
  λ w, (Ok (), World (<[path := []]> (fs w)) (pbar w) (trace w)).

(** [file.write(data)] on the file opened at [path] *)
Definition file_write (path : string) (data : bytes) : M unit :=
  λ w, (Ok (), World (<[path := default [] (fs w !! path) ++ data]> (fs w))
                     (pbar w) (trace w)).

(** [open(path, "rb").read()] *)
Definition file_read (path : string) : M bytes :=
  λ w, match fs w !! path with
       | Some data => (Ok data, w)
       | None => (Raise (FileNotFoundError path), w)
       end.

(** [os.path.exists(path)] *)
Definition path_exists (path : string) : M bool :=
  λ w, (Ok (bool_decide (is_Some (fs w !! path))), w).

(** [os.remove(path)] *)
Definition os_remove (path : string) : M unit :=
  λ w, match fs w !! path with
       | Some _ => (Ok (), World (delete path (fs w)) (pbar w) (trace w))
       | None => (Raise (FileNotFoundError path), w)
       end.

(** [tqdm(total=...)]: a fresh bar, counting from 0 *)
Definition tqdm_new : M unit :=
  λ w, (Ok (), World (fs w) 0 (trace w)).

(** [pbar.update(n)] *)
Definition pbar_update (n : Z) : M unit :=
  λ w, (Ok (), World (fs w) (pbar w + n) (trace w)).

(** [os.path.join(a, b)] of posixpath *)
Definition starts_with_slash (s : string) : bool :=
  match s with String c _ => bool_decide (c = "/"%char) | "" => false end.

Fixpoint ends_with_slash (s : string) : bool :=
  match s with
  | "" => false
  | String c "" => bool_decide (c = "/"%char)
  | String _ s' => ends_with_slash s'
  end.

Definition os_path_join (a b : string) : string :=
  if starts_with_slash b then b
  else if bool_decide (a = "") || ends_with_slash a then a +:+ b
  else a +:+ "/" +:+ b.

(** ** The network *)

Record api_response : Type := ApiResponse {
  api_status : Z;
  api_json : result (gmap string string)   (* response.json(): a dict, or it raises *)
}.

Record head_response : Type := HeadResponse {
  head_status : Z;
  head_headers : gmap string string        (* keyed by lower-case header name *)
}.

Record get_response : Type := GetResponse {
  status_code : Z;
  body : list bytes;          (* the buffers iter_content yields, in order *)
  body_error : option exn     (* raised by iter_content after the last buffer, if any *)
}.

Record env : Type := Env {
  net_api : string → result api_response;
  net_head : string → result head_response;
  net_get : string → option (Z * Z) → result get_response;
  url_filename : string → option string;
    (* first value of the query parameter "filename" of a URL (urllib.parse) *)
  py_int : string → option Z;
    (* int(s) of a header value; None when int raises ValueError *)
  scheduler : nat → nat
    (* which of the still running workers finishes next, step by step *)
}.

Definition of_result {A} (r : result A) : M A := future_result r.

Definition session_get_api (E : env) (url : string) : M api_response :=
  emit (EvApiGet url) ;; of_result (net_api E url).

Definition session_head (E : env) (url : string) : M head_response :=
  emit (EvHead url) ;; of_result (net_head E url).

Definition session_get (E : env) (url : string) (range : option (Z * Z)) : M get_response :=
  emit (EvStreamGet url range) ;; of_result (net_get E url range).

(** [response.raise_for_status()] *)
Definition raise_for_status (status : Z) : M unit :=
  if bool_decide (400 ≤ status < 600)
  then raise (RequestException "HTTPError")
  else pass.

(** ** YandexDiskDownloader *)

Record YandexDiskDownloader : Type := Downloader {
  link : string;
  download_location : string;
  num_threads : Z
}.

Section Downloader.
Context (E : env) (self : YandexDiskDownloader).

(** [_get_download_info], lines 23-42 *)
Definition _get_download_info : M (string * string * Z * bool) :=
  let api_url :=
    "https://cloud-api.yandex.net/v1/disk/public/resources/download?public_key="
      +:+ link self in
  response ← session_get_api E api_url ;
  raise_for_status (api_status response) ;;
  json ← of_result (api_json response) ;
  download_url ← match json !! "href" with
                 | Some u => mret u
                 | None => raise (KeyError "href")
                 end ;
  let file_name := default "unknown_file" (url_filename E download_url) in
  head_response ← session_head E download_url ;
  raise_for_status (head_status head_response) ;;
  file_size ← match head_headers head_response !! "content-length" with
              | None => mret 0
              | Some s => match py_int E s with
                          | Some z => mret z
                          | None => raise (ValueError s)
                          end
              end ;
  let accept_ranges := default "" (head_headers head_response !! "accept-ranges") in
  mret (download_url, file_name, file_size, bool_decide (accept_ranges = "bytes")).

(** The loop of lines 53-56: every non-empty buffer is written and counted. *)
Fixpoint write_stream (path : string) (chunks : list bytes) (err : option exn) : M unit :=
  match chunks with
  | [] => match err with Some e => raise e | None => mret () end
  | chunk :: rest =>
      (if bool_decide (chunk ≠ [])
       then file_write path chunk ;; pbar_update (Z.of_nat (length chunk))
       else pass) ;;
      write_stream path rest err
  end.

(** [_download_chunk], lines 44-63.  The body of [try] yields [None] (fall
    through to [return True]); the handler yields the value it returns. *)
Definition _download_chunk (args : string * Z * Z * string) : M bool :=
  let '(url, start, end_, part_path) := args in
  returned ← try_except
    (response ← session_get E url (Some (start, end_)) ;
     raise_for_status (status_code response) ;;
     open_wb part_path ;;
     write_stream part_path (body response) (body_error response) ;;
     mret (M := M) None)
    (λ e, if is_RequestException e
          then Some (emit (PrintPartError part_path e) ;;
                     ex ← path_exists part_path ;
                     (if ex : bool then os_remove part_path else pass) ;;
                     mret (M := M) (Some false))
          else None) ;
  match returned with
  | Some b => mret b
  | None => mret true
  end.

(** The name of part [i] of [final_path]: f"{final_path}.part{i}" *)
Definition part_path_of (final_path : string) (i : Z) : string :=
  final_path +:+ ".part" +:+ pretty i.

(** Lines 71-75: the body of the concatenation loop. *)
Definition merge_part (final_path : string) (i : Z) : M unit :=
  let part_path := part_path_of final_path i in
  ex ← path_exists part_path ;
  if negb ex then raise (FileNotFoundError part_path)
  else data ← file_read part_path ; file_write final_path data.

(** Lines 80-82: the body of the cleanup loop. *)
Definition cleanup_part (final_path : string) (i : Z) : M unit :=
  let part_path := part_path_of final_path i in
  ex ← path_exists part_path ;
  if ex : bool then os_remove part_path else pass.

(** [_merge_files], lines 65-82 *)
Definition _merge_files (final_path : string) (num_parts : Z) : M unit :=
  emit (PrintMerging num_parts final_path) ;;
  try_finally
    (open_wb final_path ;;
     for_each (seqZ 0 num_parts) (merge_part final_path))
    (emit PrintCleaning ;;
     for_each (seqZ 0 num_parts) (cleanup_part final_path)).

(** [_simple_download], lines 126-136 *)
Definition _simple_download (url save_path : string) (file_size : Z) : M unit :=
  tqdm_new ;;
  response ← session_get E url None ;
  raise_for_status (status_code response) ;;
  open_wb save_path ;;
  write_stream save_path (body response) (body_error response) ;;
  emit PrintSimpleComplete.

(** Lines 104-107: the byte range of chunk [i]. *)
Definition chunk_range (file_size chunk_size i : Z) : Z * Z :=
  let start_byte := i * chunk_size in
  let end_byte := start_byte + chunk_size - 1 in
  let end_byte := if bool_decide (i = num_threads self - 1)
                  then file_size - 1 else end_byte in
  (start_byte, end_byte).

(** Lines 104-110: the arguments of the task submitted for chunk [i]. *)
Definition task_args (url save_path : string) (file_size chunk_size i : Z)
    : string * Z * Z * string :=
  let '(start_byte, end_byte) := chunk_range file_size chunk_size i in
  (url, start_byte, end_byte, part_path_of save_path i).

(** Lines 103-110: the submitted tasks, in submit order. *)
Definition tasks (url save_path : string) (file_size chunk_size : Z)
    : list (string * Z * Z * string) :=
  task_args url save_path file_size chunk_size <$> seqZ 0 (num_threads self).

(** [concurrent.futures.as_completed]: the order in which the running
    tasks finish.  At each step the scheduler names one of the pending
    tasks; [n] bounds the number of steps by the number of tasks. *)
Fixpoint completion_order {A} (n step : nat) (pending : list A) : list A :=
  match n with
  | O => []
  | S n' =>
      let k := (scheduler E step `mod` length pending)%nat in
      match pending !! k with
      | Some t => t :: completion_order n' (S step) (delete k pending)
      | None => []
      end
  end.

Definition as_completed {A} (submitted : list A) : list A :=
  completion_order (length submitted) 0 submitted.

(** Lines 102-113: the pool runs every submitted task; the results are
    then read in completion order, the first stored exception is raised. *)
Definition run_pool (submitted : list (string * Z * Z * string)) : M (list bool) :=
  if bool_decide (num_threads self ≤ 0)
  then raise (ValueError "max_workers must be greater than 0")
  else
    futures ← mapM (λ args, capture (_download_chunk args)) (as_completed submitted) ;
    mapM future_result futures.

(** [download], lines 84-124 *)
Definition download_body : M unit :=
  '(url, file_name, file_size, supports_ranges) ← _get_download_info ;
  let save_path := os_path_join (download_location self) file_name in
  if bool_decide (file_size = 0) || negb supports_ranges then
    emit PrintFallback ;;
    _simple_download url save_path file_size
  else
    emit (PrintDownloading file_name file_size (num_threads self)) ;;
    chunk_size ← (if bool_decide (num_threads self = 0)
                  then raise ZeroDivisionError
                  else mret (file_size `div` num_threads self)) ;
    tqdm_new ;;
    results ← run_pool (tasks url save_path file_size chunk_size) ;
    if negb (forallb id results)
    then raise (ConnectionError "One or more parts failed to download. Aborting merge.")
    else
      _merge_files save_path (num_threads self) ;;
      emit PrintDownloadComplete.

Definition download : M unit :=
  try_except download_body
    (λ e, if is_RequestException e then Some (emit (PrintError e))
          else if is_Exception e then Some (emit (PrintUnexpected e))
          else None).

End Downloader.

(** * Vocabulary of the properties *)

(** The byte ranges of the submitted tasks, in submit order, for a job of
    size [file_size] (with [chunk_size] as line 98 computes it). *)
Definition plan (self : YandexDiskDownloader) (file_size : Z) : list (Z * Z) :=
  (λ t : string * Z * Z * string, (t.1.1.2, t.1.2))
    <$> tasks self "" "" file_size (file_size `div` num_threads self).

(** Number of bytes of the inclusive range [start, end]. *)
Definition range_len (r : Z * Z) : Z := r.2 - r.1 + 1.

Definition sumZ (l : list Z) : Z := foldr Z.add 0 l.

(** The result a chunk fetch hands back; by [download_chunk_result] it
    does not depend on the files, the bar or the trace. *)
Definition fetch_result (E : env) (args : string * Z * Z * string) : result bool :=
  (_download_chunk E args (World ∅ 0 [])).1.

(** A transport or HTTP-status failure of a streamed GET: the request
    raises a [RequestException], or the status is an error status (so that
    [raise_for_status] raises), or the body stream raises a
    [RequestException] part-way. *)
Definition transport_failure (r : result get_response) : Prop :=
  match r with
  | Raise e => is_RequestException e = true
  | Ok response =>
      400 ≤ status_code response < 600
      ∨ ∃ e, body_error response = Some e ∧ is_RequestException e = true
  end.

(** The request completes without any error. *)
Definition completes (r : result get_response) : Prop :=
  match r with
  | Raise _ => False
  | Ok response => ¬ (400 ≤ status_code response < 600) ∧ body_error response = None
  end.

(** The bytes a response delivers before it ends or fails. *)
Definition delivered (r : result get_response) : bytes :=
  match r with
  | Raise _ => []
  | Ok response => concat (body response)
  end.

(** The request a task sends and what the network answers to it. *)
Definition request_of (t : string * Z * Z * string) : string * option (Z * Z) :=
  (t.1.1.1, Some (t.1.1.2, t.1.2)).

Definition response_of (E : env) (t : string * Z * Z * string) : result get_response :=
  net_get E t.1.1.1 (Some (t.1.1.2, t.1.2)).

(** The events a chunk fetch can add to the trace. *)
Definition is_fetch_event (ev : event) : Prop :=
  match ev with
  | EvStreamGet _ (Some _) | PrintPartError _ _ => True
  | _ => False
  end.

(** The streamed GET requests of a trace, oldest first. *)
Definition stream_requests (tr : list event) : list (string * option (Z * Z)) :=
  omap (λ ev, match ev with EvStreamGet url range => Some (url, range) | _ => None end) tr.

(** The files [m] without the part stores of [final_path] named in [l]. *)
Definition remove_parts (final_path : string) (l : list Z) (m : gmap string bytes)
    : gmap string bytes :=
  foldr (λ i m', delete (part_path_of final_path i) m') m l.

(** The contents of the part stores of [final_path] named in [l], in the
    order of [l]; a missing part counts as empty. *)
Definition parts_of (final_path : string) (l : list Z) (m : gmap string bytes)
    : list bytes :=
  (λ i, default [] (m !! part_path_of final_path i)) <$> l.

(** Bytes [start..end] (inclusive) of a resource. *)
Definition slice (start end_ : Z) (resource : bytes) : bytes :=
  take (Z.to_nat (end_ + 1 - start)) (drop (Z.to_nat start) resource).

(** A job has succeeded when the last thing it printed is line 119
    (chunked path) or line 136 (fallback path). *)
Definition job_succeeded (w : world) : Prop :=
  last (trace w) = Some PrintDownloadComplete.

Definition fallback_succeeded (w : world) : Prop :=
  last (trace w) = Some PrintSimpleComplete.

(** ** Concrete networks, for the examples *)

(** A network that resolves every link to one file, named a.bin, whose
    metadata probe reports the size of [resource] and range support, and
    whose streamed GETs are answered by [get]. *)
Definition serving (resource : bytes) (get : option (Z * Z) → result get_response) : env :=
  {| net_api := λ _, Ok (ApiResponse 200 (Ok {[ "href" := "https://host/d?filename=a.bin" ]}));
     net_head := λ _, Ok (HeadResponse 200
                   {[ "content-length" := pretty (Z.of_nat (length resource));
                      "accept-ranges" := "bytes" ]});
     net_get := λ _, get;
     url_filename := λ _, Some "a.bin";
     py_int := λ _, Some (Z.of_nat (length resource));
     scheduler := λ step, S step |}.

(** A server that honours a satisfiable range with status 206 and ignores
    a Range header it cannot parse or satisfy, sending the whole resource
    with status 200. *)
Definition lenient_get (resource : bytes) (range : option (Z * Z)) : result get_response :=
  match range with
  | Some (s, e) =>
      if bool_decide (0 ≤ s ≤ e)
      then Ok (GetResponse 206 [slice s e resource] None)
      else Ok (GetResponse 200 [resource] None)
  | None => Ok (GetResponse 200 [resource] None)
  end.

(** A server that answers every range with exactly the bytes it names
    (none for an empty range). *)
Definition exact_get (resource : bytes) (range : option (Z * Z)) : result get_response :=
  match range with
  | Some (s, e) => Ok (GetResponse 206 [slice s e resource] None)
  | None => Ok (GetResponse 200 [resource] None)
  end.

(** A server whose connection breaks for every range starting at
    [bad_start], and after one buffer of an unbounded GET. *)
Definition flaky_get (resource : bytes) (bad_start : Z) (range : option (Z * Z))
    : result get_response :=
  match range with
  | Some (s, e) =>
      if bool_decide (s = bad_start)
      then Ok (GetResponse 206 [take 1 (slice s e resource)]
                 (Some (RequestException "ChunkedEncodingError")))
      else Ok (GetResponse 206 [slice s e resource] None)
  | None => Ok (GetResponse 200 [take 1 resource]
                  (Some (RequestException "ChunkedEncodingError")))
  end.

(** A server that answers every range with status 206 and no error, but
    with at most the first three bytes of the range. *)
Definition short_get (resource : bytes) (range : option (Z * Z)) : result get_response :=
  match range with
  | Some (s, e) => Ok (GetResponse 206 [take 3 (slice s e resource)] None)
  | None => Ok (GetResponse 200 [resource] None)
  end.

Definition abc : bytes := ["a"; "b"; "c"; "d"; "e"; "f"; "g"; "h"; "i"; "j"]%byte.
Definition ab : bytes := ["a"; "b"]%byte.

Definition three_workers : YandexDiskDownloader := Downloader "link" "dl" 3.
Definition empty_world : world := World ∅ 0 [].

(** A disk on which part 0 of "f" exists and part 1 does not. *)
Definition part0_only : world := World {[ "f.part0" := ["a"%byte] ]} 0 [].

(** ** Vocabulary of the further properties *)

(** The bytes a streamed response puts on the bar: its body, once the
    status has been accepted. *)
Definition streamed (r : result get_response) : bytes :=
  match r with
  | Ok response =>
      if bool_decide (400 ≤ status_code response < 600) then []
      else concat (body response)
  | Raise _ => []
  end.

(** What a chunk fetch leaves at its part path, given what was there. *)
Definition part_after (r : result get_response) (old : option bytes) : option bytes :=
  match r with
  | Raise e => if is_RequestException e then None else old
  | Ok response =>
      if bool_decide (400 ≤ status_code response < 600) then None
      else match body_error response with
           | None => Some (concat (body response))
           | Some e =>
               if is_RequestException e then None
               else Some (concat (body response))
           end
  end.

(** The same network with another order of completion of the workers. *)
Definition with_scheduler (E : env) (sch : nat → nat) : env :=
  Env (net_api E) (net_head E) (net_get E) (url_filename E) (py_int E) sch.

(** The URL of the API request of line 25. *)
Definition api_url_of (self : YandexDiskDownloader) : string :=
  "https://cloud-api.yandex.net/v1/disk/public/resources/download?public_key="
    +:+ link self.

(** The diagnostic [download] prints for an exception (lines 121-124). *)
Definition diagnostic (e : exn) : event :=
  if is_RequestException e then PrintError e else PrintUnexpected e.

(** A network whose API answers with status 404. *)
Definition api_not_found : env :=
  Env (λ _, Ok (ApiResponse 404 (Raise (ValueError "no json"))))
      (λ _, Raise (RequestException "unreachable"))
      (λ _ _, Raise (RequestException "unreachable"))
      (λ _, None) (λ _, None) (λ _, 0%nat).

(** A network like [serving], whose metadata probe carries the given
    headers and whose URL has no filename parameter. *)
Definition probing (headers : gmap string string)
    (get : option (Z * Z) → result get_response) : env :=
  {| net_api := λ _, Ok (ApiResponse 200 (Ok {[ "href" := "https://host/d" ]}));
     net_head := λ _, Ok (HeadResponse 200 headers);
     net_get := λ _, get;
     url_filename := λ _, None;
     py_int := λ s, if bool_decide (s = "10") then Some 10 else None;
     scheduler := λ step, step |}.

(** A server on which reading the body of the range starting at
    [bad_start] fails, after one byte, with an error that is not a
    [RequestException]. *)
Definition crashing_get (resource : bytes) (bad_start : Z) (range : option (Z * Z))
    : result get_response :=
  match range with
  | Some (s, e) =>
      if bool_decide (s = bad_start)
      then Ok (GetResponse 206 [take 1 (slice s e resource)]
                 (Some (OtherException "MemoryError")))
      else Ok (GetResponse 206 [slice s e resource] None)
  | None => Ok (GetResponse 200 [resource] None)
  end.

(** A disk that holds the three parts of "f". *)
Definition three_parts : world :=
  World {[ "f.part0" := ["a"%byte]; "f.part1" := ["b"%byte];
           "f.part2" := ["c"%byte]; "f.part7" := ["z"%byte] ]} 0 [].

(** * Properties *)

(** ** The state and exception monad *)

(** Unfold one layer of monadic code without touching maps or numbers. *)
Ltac msimpl :=
  cbn -[lookup insert delete Z.add Z.sub Z.mul Z.div Z.of_nat Z.to_nat
        seqZ pretty String.append].

Lemma write_stream_run path chunks err data w :
  fs w !! path = Some data →
  write_stream path chunks err w =
    (match err with Some e => Raise e | None => Ok () end,
     World (<[path := data ++ concat chunks]> (fs w))
           (pbar w + Z.of_nat (length (concat chunks))) (trace w)).
Proof.
  revert data w. induction chunks as [|chunk rest IH]; intros data w Hdata.
  - simpl. rewrite app_nil_r, Z.add_0_r, insert_id by done.
    destruct w, err; reflexivity.
  - cbn [write_stream]. unfold mbind, M_bind. case_bool_decide as Hne.
    + msimpl. rewrite Hdata. msimpl. erewrite IH by (msimpl; apply lookup_insert_eq).
      msimpl. rewrite insert_insert_eq, length_app, <- app_assoc.
      do 2 f_equal. lia.
    + assert (chunk = []) as -> by (destruct chunk; [done | by destruct Hne]).
      msimpl. erewrite IH by done. reflexivity.
Qed.

(** The whole behaviour of a chunk fetch, case by case. *)
Lemma download_chunk_run E url start end_ part_path w :
  _download_chunk E (url, start, end_, part_path) w =
    let tr := trace w ++ [EvStreamGet url (Some (start, end_))] in
    let failed e n :=
      (Ok false, World (delete part_path (fs w)) n (tr ++ [PrintPartError part_path e])) in
    match net_get E url (Some (start, end_)) with
    | Raise e =>
        if is_RequestException e then failed e (pbar w)
        else (Raise e, World (fs w) (pbar w) tr)
    | Ok response =>
        if bool_decide (400 ≤ status_code response < 600)
        then failed (RequestException "HTTPError") (pbar w)
        else
          let n := pbar w + Z.of_nat (length (concat (body response))) in
          let written := <[part_path := concat (body response)]> (fs w) in
          match body_error response with
          | None => (Ok true, World written n tr)
          | Some e =>
              if is_RequestException e then failed e n
              else (Raise e, World written n tr)
          end
    end.
Proof.
  unfold _download_chunk, try_except, session_get, raise_for_status.
  unfold mbind at 1. unfold M_bind at 1. unfold mbind at 1. unfold M_bind at 1.
  cbn [emit]. unfold mbind, M_bind, of_result, future_result.
  destruct (net_get E url (Some (start, end_))) as [response|e]; msimpl.
  - case_bool_decide as Hst; msimpl.
    + unfold path_exists, os_remove; msimpl.
      destruct (fs w !! part_path) as [old|] eqn:Hold; msimpl.
      * by rewrite Hold.
      * by rewrite delete_id.
    + erewrite write_stream_run by (msimpl; apply lookup_insert_eq).
      msimpl. rewrite insert_insert_eq.
      destruct (body_error response) as [e|]; msimpl; [|done].
      destruct (is_RequestException e); msimpl; [|done].
      unfold path_exists, os_remove; msimpl.
      rewrite lookup_insert_eq. msimpl.
      by rewrite lookup_insert_eq, delete_insert_eq.
  - destruct (is_RequestException e); msimpl; [|done].
    unfold path_exists, os_remove; msimpl.
    destruct (fs w !! part_path) as [old|] eqn:Hold; msimpl.
    + by rewrite Hold.
    + by rewrite delete_id.
Qed.

(** ** The chunk plan *)

Section Plan.
Context (self : YandexDiskDownloader).
Let N := num_threads self.

Lemma plan_eq S :
  plan self S = chunk_range self S (S `div` N) <$> seqZ 0 N.
Proof.
  unfold plan, tasks. rewrite <- list_fmap_compose.
  apply list_fmap_ext. intros _ i _. unfold compose, task_args.
  by destruct (chunk_range self S _ i).
Qed.

Lemma tasks_ranges url save_path S :
  (λ t : string * Z * Z * string, (t.1.1.2, t.1.2))
    <$> tasks self url save_path S (S `div` N) = plan self S.
Proof.
  rewrite plan_eq. unfold tasks. rewrite <- list_fmap_compose.
  apply list_fmap_ext. intros _ i _. unfold compose, task_args.
  by destruct (chunk_range self S _ i).
Qed.

Lemma length_plan S : length (plan self S) = Z.to_nat N.
Proof. by rewrite plan_eq, length_fmap, length_seqZ. Qed.

Lemma plan_lookup S (i : nat) :
  Z.of_nat i < N →
  plan self S !! i = Some (chunk_range self S (S `div` N) (Z.of_nat i)).
Proof.
  intros Hi. rewrite plan_eq, list_lookup_fmap, lookup_seqZ_lt by done.
  simpl. by rewrite Z.add_0_l.
Qed.

Lemma plan_lookup_inv S (i : nat) r :
  plan self S !! i = Some r →
  Z.of_nat i < N ∧ r = chunk_range self S (S `div` N) (Z.of_nat i).
Proof.
  intros Hr. assert (Hlt : (i < length (plan self S))%nat)
    by (apply lookup_lt_is_Some; eauto).
  rewrite length_plan in Hlt. assert (Z.of_nat i < N) by lia.
  rewrite plan_lookup in Hr by done. split; [done | congruence].
Qed.

Lemma chunk_range_inner S cs i :
  i ≠ N - 1 → chunk_range self S cs i = (i * cs, i * cs + cs - 1).
Proof. intros. unfold chunk_range. fold N. by rewrite bool_decide_eq_false_2. Qed.

Lemma chunk_range_last S cs :
  chunk_range self S cs (N - 1) = ((N - 1) * cs, S - 1).
Proof. unfold chunk_range. fold N. by rewrite bool_decide_eq_true_2. Qed.

(** Floor division leaves a remainder for the last chunk. *)
Lemma base_bound S : 0 < S → 1 ≤ N → 0 ≤ S `div` N ∧ N * (S `div` N) ≤ S.
Proof.
  intros HS HN. split.
  - apply Z.div_pos; lia.
  - apply Z.mul_div_le. lia.
Qed.

Lemma sumZ_inner_ranges S cs (n : nat) :
  Z.of_nat n ≤ N - 1 →
  sumZ (range_len <$> (chunk_range self S cs <$> seqZ 0 (Z.of_nat n))) = Z.of_nat n * cs.
Proof.
  induction n as [|n IH]; intros Hn; [done|].
  rewrite seqZ_S, !fmap_app. simpl.
  assert (Happ : ∀ l1 l2, sumZ (l1 ++ l2) = sumZ l1 + sumZ l2).
  { intros l1 l2. induction l1 as [|x l1 IHl]; simpl; [done | rewrite IHl; lia]. }
  rewrite Happ, IH by lia. simpl.
  rewrite chunk_range_inner by lia. unfold range_len. simpl. lia.
Qed.

Lemma sumZ_plan S : 0 < S → 1 ≤ N → sumZ (range_len <$> plan self S) = S.
Proof.
  intros HS HN. rewrite plan_eq.
  replace N with (Z.of_nat (Datatypes.S (Z.to_nat (N - 1)))) at 2 by lia.
  rewrite seqZ_S, !fmap_app. simpl.
  assert (Happ : ∀ l1 l2, sumZ (l1 ++ l2) = sumZ l1 + sumZ l2).
  { intros l1 l2. induction l1 as [|x l1 IHl]; simpl; [done | rewrite IHl; lia]. }
  rewrite Happ, sumZ_inner_ranges by lia. simpl.
  rewrite Z2Nat.id by lia. rewrite chunk_range_last. unfold range_len. simpl. lia.
Qed.

End Plan.

(** C1. For every size S > 0 and worker count N >= 1 the chunk plan is
    contiguous and exhaustive: it has N chunks, the first starts at 0, each
    chunk ends one byte before the next starts, the last ends at S-1, no
    chunk has a negative length, the lengths sum to S, and every byte
    offset of the file lies in exactly one chunk. *)
Theorem plan_contiguous_exhaustive (self : YandexDiskDownloader) (S : Z) :
  0 < S → 1 ≤ num_threads self →
  let N := num_threads self in
  let chunks := plan self S in
  Z.of_nat (length chunks) = N
  ∧ (∃ e, chunks !! 0%nat = Some (0, e))
  ∧ (∀ (i : nat) s e s' e',
       chunks !! i = Some (s, e) → chunks !! Datatypes.S i = Some (s', e') → e + 1 = s')
  ∧ (∃ s, last chunks = Some (s, S - 1))
  ∧ Forall (λ r, 0 ≤ range_len r) chunks
  ∧ sumZ (range_len <$> chunks) = S
  ∧ (∀ b, 0 ≤ b < S →
       ∃ i : nat, (∃ s e, chunks !! i = Some (s, e) ∧ s ≤ b ≤ e)
         ∧ ∀ (j : nat) s e, chunks !! j = Some (s, e) → s ≤ b ≤ e → j = i).
Proof.
  intros HS HN N chunks. subst chunks.
  destruct (base_bound self S HS HN) as [Hcs Hle]. fold N in Hcs, Hle.
  set (cs := S `div` N) in *.
  assert (Hrange : ∀ i : nat, Z.of_nat i < N →
            plan self S !! i = Some (chunk_range self S cs (Z.of_nat i)))
    by (intros; by apply plan_lookup).
  assert (Hinv : ∀ (i : nat) r, plan self S !! i = Some r →
            Z.of_nat i < N ∧ r = chunk_range self S cs (Z.of_nat i))
    by (intros; by apply plan_lookup_inv).
  split; [rewrite length_plan; fold N; lia|].
  split.
  { rewrite (Hrange 0%nat) by lia. unfold chunk_range. simpl. eauto. }
  split.
  { intros i s e s' e' Hi Hi'.
    apply Hinv in Hi as [Hlt Hi]. apply Hinv in Hi' as [Hlt' Hi'].
    rewrite chunk_range_inner in Hi by (fold N; lia).
    injection Hi as -> ->.
    unfold chunk_range in Hi'. case_bool_decide; injection Hi' as -> ->; lia. }
  split.
  { rewrite last_lookup, length_plan. fold N.
    rewrite Hrange by lia.
    replace (Z.of_nat (Nat.pred (Z.to_nat N))) with (N - 1) by lia.
    rewrite chunk_range_last. eauto. }
  split.
  { apply Forall_lookup. intros i r Hr. apply Hinv in Hr as [Hlt ->].
    unfold chunk_range, range_len. fold N. case_bool_decide; simpl; nia. }
  split; [by apply sumZ_plan|].
  intros b Hb.
  (* the chunk holding offset b *)
  set (k := if decide (cs = 0) then N - 1 else Z.min (b `div` cs) (N - 1)).
  assert (Hk : 0 ≤ k < N).
  { unfold k. case_decide; [lia|]. pose proof (Z.div_pos b cs). lia. }
  assert (Hin : (chunk_range self S cs k).1 ≤ b ≤ (chunk_range self S cs k).2).
  { unfold chunk_range, k. fold N. case_decide as Hcs0.
    - rewrite bool_decide_eq_true_2 by done. simpl. nia.
    - pose proof (Z.mul_div_le b cs ltac:(lia)).
      pose proof (Z.mul_succ_div_gt b cs ltac:(lia)).
      case_bool_decide as Hlast; simpl.
      + rewrite Hlast. nia.
      + assert (b `div` cs < N - 1) by lia.
        rewrite Z.min_l by lia. nia. }
  exists (Z.to_nat k). split.
  { destruct (chunk_range self S cs k) as [s e] eqn:Hke.
    exists s, e. rewrite Hrange by lia. rewrite Z2Nat.id by lia. by rewrite Hke. }
  intros j s e Hj Hbj. apply Hinv in Hj as [Hlt Hj].
  assert (Z.of_nat j = k); [|lia].
  revert Hin. unfold chunk_range in *. fold N in Hj |- *.
  repeat case_bool_decide; injection Hj as -> ->; simpl in *; intros; nia.
Qed.

(** An instance: S = 10, N = 3 gives the chunks [0,2], [3,5], [6,9]. *)
Lemma plan_contiguous_exhaustive_witness :
  let chunks := plan (Downloader "l" "d" 3) 10 in
  chunks = [(0, 2); (3, 5); (6, 9)]
  ∧ Z.of_nat (length chunks) = 3
  ∧ sumZ (range_len <$> chunks) = 10.
Proof.
  pose proof (plan_contiguous_exhaustive (Downloader "l" "d" 3) 10
                ltac:(lia) ltac:(simpl; lia)) as H.
  simpl in H. destruct H as (Hlen & _ & _ & _ & _ & Hsum & _).
  split; [reflexivity|]. split; [exact Hlen | exact Hsum].
Defined.

(** ** The chunk fetcher *)

Section Fetcher.
Context (E : env).
Implicit Types (t : string * Z * Z * string) (w : world).

Lemma download_chunk_result t w :
  (_download_chunk E t w).1 = fetch_result E t.
Proof.
  destruct t as [[[url s] e] pp]. unfold fetch_result.
  rewrite !download_chunk_run. cbv zeta.
  destruct (net_get E url (Some (s, e))) as [response|ex].
  - case_bool_decide; [done|].
    destruct (body_error response) as [ex|]; [|done].
    by destruct (is_RequestException ex).
  - by destruct (is_RequestException ex).
Qed.

Lemma fetch_result_true t :
  fetch_result E t = Ok true ↔ completes (response_of E t).
Proof.
  destruct t as [[[url s] e] pp]. unfold fetch_result, response_of, completes.
  rewrite download_chunk_run. cbv zeta. simpl.
  destruct (net_get E url (Some (s, e))) as [response|ex].
  - case_bool_decide as Hst; [split; [done | by intros [? _]]|].
    destruct (body_error response) as [ex|]; [|by split].
    destruct (is_RequestException ex); (split; [done | by intros [_ ?]]).
  - by destruct (is_RequestException ex).
Qed.

Lemma fetch_result_false t :
  fetch_result E t = Ok false ↔ transport_failure (response_of E t).
Proof.
  destruct t as [[[url s] e] pp]. unfold fetch_result, response_of, transport_failure.
  rewrite download_chunk_run. cbv zeta. simpl.
  destruct (net_get E url (Some (s, e))) as [response|ex].
  - case_bool_decide as Hst; [split; [by left | done]|].
    destruct (body_error response) as [ex|].
    + destruct (is_RequestException ex) eqn:Hex; [split; [right; eauto | done]|].
      split; [done|]. intros [?|(ex' & [= <-] & ?)]; [done | congruence].
    + split; [done|]. by intros [?|(ex' & ? & _)].
  - by destruct (is_RequestException ex).
Qed.

(** What one fetch does to the world, whatever its outcome. *)
Lemma download_chunk_frame t w :
  let w' := (_download_chunk E t w).2 in
  (∃ evs, trace w' = trace w ++ evs ∧ Forall is_fetch_event evs
          ∧ stream_requests evs = [request_of t])
  ∧ (∀ p, p ≠ t.2 → fs w' !! p = fs w !! p)
  ∧ pbar w ≤ pbar w'
  ∧ match fetch_result E t with
    | Ok true =>
        fs w' !! t.2 = Some (delivered (response_of E t))
        ∧ pbar w' = pbar w + Z.of_nat (length (delivered (response_of E t)))
    | Ok false => fs w' !! t.2 = None
    | Raise _ => True
    end.
Proof.
  destruct t as [[[url s] e] pp]. unfold fetch_result, response_of, request_of.
  rewrite !download_chunk_run. cbv zeta. simpl.
  assert (Hreq : ∀ tr1 : list event,
    ∃ evs, (trace w ++ [EvStreamGet url (Some (s, e))]) ++ tr1 = trace w ++ evs
      ∧ (Forall is_fetch_event tr1 → Forall is_fetch_event evs)
      ∧ (stream_requests tr1 = [] → stream_requests evs = [(url, Some (s, e))])).
  { intros tr1. exists (EvStreamGet url (Some (s, e)) :: tr1).
    split; [by rewrite <- app_assoc|]. split.
    - intros Hall. by constructor.
    - intros Hnone.
      change (stream_requests (EvStreamGet url (Some (s, e)) :: tr1))
        with ((url, Some (s, e)) :: stream_requests tr1).
      by rewrite Hnone. }
  assert (Hreq0 : ∃ evs, trace w ++ [EvStreamGet url (Some (s, e))] = trace w ++ evs
      ∧ Forall is_fetch_event evs ∧ stream_requests evs = [(url, Some (s, e))]).
  { exists [EvStreamGet url (Some (s, e))]. split; [done|]. split; [|done].
    by repeat constructor. }
  assert (Hfail : ∀ ex, ∃ evs,
      (trace w ++ [EvStreamGet url (Some (s, e))]) ++ [PrintPartError pp ex]
        = trace w ++ evs
      ∧ Forall is_fetch_event evs ∧ stream_requests evs = [(url, Some (s, e))]).
  { intros ex. destruct (Hreq [PrintPartError pp ex]) as (evs & ? & Hall & Hsr).
    exists evs. split; [done|]. split; [apply Hall; by repeat constructor | by apply Hsr]. }
  assert (Hins : ∀ (p : string) (x : bytes), p ≠ pp → <[pp:=x]> (fs w) !! p = fs w !! p)
    by (intros; by apply lookup_insert_ne).
  assert (Hdel : ∀ p : string, p ≠ pp → delete pp (fs w) !! p = fs w !! p)
    by (intros; by apply lookup_delete_ne).
  destruct (net_get E url (Some (s, e))) as [response|ex]; simpl.
  - case_bool_decide as Hst; simpl.
    + split; [apply Hfail|]. split; [exact Hdel|]. split; [lia|].
      apply lookup_delete_eq.
    + destruct (body_error response) as [ex|]; simpl.
      * destruct (is_RequestException ex); simpl.
        -- split; [apply Hfail|]. split; [exact Hdel|]. split; [lia|].
           apply lookup_delete_eq.
        -- split; [apply Hreq0|]. split; [intros; by apply Hins|]. split; [lia|done].
      * split; [apply Hreq0|]. split; [intros; by apply Hins|]. split; [lia|].
        split; [apply lookup_insert_eq | done].
  - destruct (is_RequestException ex); simpl.
    + split; [apply Hfail|]. split; [exact Hdel|]. split; [lia|].
      apply lookup_delete_eq.
    + split; [apply Hreq0|]. split; [done|]. split; [lia|done].
Qed.

End Fetcher.

(** The claim of C5 fails as stated in its last part.  Asked for the ten
    bytes [0,9], a server answers 206 with three bytes and ends the body
    without error; the fetcher returns [True] although the part store holds
    three of the ten bytes.  Nothing compares what arrived with the range. *)
Lemma short_response_returns_true :
  ¬ (∀ (E : env) (url : string) (start end_ : Z) (part_path : string) (w : world),
       0 ≤ start ≤ end_ →
       (_download_chunk E (url, start, end_, part_path) w).1 = Ok true →
       ∃ content,
         fs (_download_chunk E (url, start, end_, part_path) w).2 !! part_path
         = Some content
         ∧ Z.of_nat (length content) = range_len (start, end_)).
Proof.
  intros Hclaim.
  destruct (Hclaim (serving abc (short_get abc)) "u" 0 9 "p" empty_world
              ltac:(lia) ltac:(vm_compute; reflexivity))
    as (content & Hfile & Hlen).
  vm_compute in Hfile. injection Hfile as <-.
  vm_compute in Hlen. discriminate Hlen.
Qed.

(** C5 (amended). A chunk fetch that meets a transport or HTTP-status
    failure returns [False] (no exception leaves the worker), leaves no
    part store behind, touches no other file and has sent exactly one
    request (no retry).  It returns [True] exactly when the request
    completes without error, and then the part store holds all bytes the
    response delivered, which need not be all bytes of the range asked
    for. *)
Theorem fetch_failure_is_local (E : env) (url : string) (start end_ : Z)
    (part_path : string) (w : world) :
  let response := net_get E url (Some (start, end_)) in
  let out := _download_chunk E (url, start, end_, part_path) w in
  (transport_failure response →
     out.1 = Ok false
     ∧ fs out.2 !! part_path = None
     ∧ (∀ p, p ≠ part_path → fs out.2 !! p = fs w !! p)
     ∧ stream_requests (trace out.2)
       = stream_requests (trace w) ++ [(url, Some (start, end_))])
  ∧ (out.1 = Ok true ↔ completes response)
  ∧ (out.1 = Ok true → fs out.2 !! part_path = Some (delivered response)).
Proof.
  intros response out.
  pose proof (download_chunk_frame E (url, start, end_, part_path) w)
    as ((evs & Htr & _ & Hreq) & Hframe & _ & Hres).
  pose proof (download_chunk_result E (url, start, end_, part_path) w) as Hout.
  fold out in Htr, Hframe, Hres, Hout. simpl in Hframe, Hres.
  split; [|split].
  - intros Hfail.
    apply (fetch_result_false E (url, start, end_, part_path)) in Hfail.
    rewrite Hfail in Hres, Hout. split; [done|]. split; [done|]. split; [done|].
    rewrite Htr. unfold stream_requests in *. by rewrite omap_app, Hreq.
  - rewrite Hout. apply (fetch_result_true E (url, start, end_, part_path)).
  - intros Htrue. rewrite Hout in Htrue. rewrite Htrue in Hres. apply Hres.
Qed.

(** An instance: the connection breaks after the first byte of the range
    [3,5]; the part store, which held a stale file, is gone afterwards. *)
Lemma fetch_failure_is_local_witness :
  let w := World {[ "dl/a.bin.part1" := ["z"%byte]; "other" := ["o"%byte] ]} 0 [] in
  let out := _download_chunk (serving abc (flaky_get abc 3))
               ("u", 3, 5, "dl/a.bin.part1") w in
  out.1 = Ok false
  ∧ fs out.2 !! "dl/a.bin.part1" = None
  ∧ fs out.2 !! "other" = Some ["o"%byte].
Proof.
  intros w out.
  destruct (fetch_failure_is_local (serving abc (flaky_get abc 3))
              "u" 3 5 "dl/a.bin.part1" w) as [Hfail _].
  destruct Hfail as (Hres & Hgone & Hframe & _).
  - right. eexists. split; reflexivity.
  - split; [exact Hres|]. split; [exact Hgone|].
    trans (fs w !! "other"); [by apply Hframe | reflexivity].
Defined.

(** ** Part paths *)

Lemma append_ne_self (s t : string) : t ≠ "" → s +:+ t ≠ s.
Proof.
  intros Ht. induction s as [|c s IH]; simpl; [done|].
  intros [= Heq]. by apply IH.
Qed.

Lemma part_path_ne final i : part_path_of final i ≠ final.
Proof. unfold part_path_of. by apply append_ne_self. Qed.

Lemma part_path_inj final i j :
  part_path_of final i = part_path_of final j → i = j.
Proof.
  unfold part_path_of. intros Heq.
  apply (inj (String.app final)) in Heq.
  apply (inj (String.app ".part")) in Heq.
  by apply (inj pretty) in Heq.
Qed.

(** ** The merge step *)

Section Merge.
Context (final : string).
Implicit Types (l : list Z) (m : gmap string bytes) (w : world).

Lemma remove_parts_delete l p m :
  remove_parts final l (delete p m) = delete p (remove_parts final l m).
Proof.
  induction l as [|i l IH]; simpl; [done|]. by rewrite IH, delete_delete.
Qed.

Lemma remove_parts_lookup_in l m i :
  i ∈ l → remove_parts final l m !! part_path_of final i = None.
Proof.
  induction l as [|j l IH]; simpl; [by intros ?%elem_of_nil|].
  intros [->|Hin]%elem_of_cons; [apply lookup_delete_eq|].
  destruct (decide (part_path_of final j = part_path_of final i)) as [->|Hne].
  - apply lookup_delete_eq.
  - rewrite lookup_delete_ne by done. by apply IH.
Qed.

Lemma remove_parts_lookup_notin l m p :
  (∀ i, i ∈ l → p ≠ part_path_of final i) →
  remove_parts final l m !! p = m !! p.
Proof.
  induction l as [|j l IH]; simpl; [done|]. intros Hp.
  rewrite lookup_delete_ne by (intros Heq; by apply (Hp j); [left|]).
  apply IH. intros i Hi. apply Hp. by right.
Qed.

Lemma parts_of_insert_final l m x :
  parts_of final l (<[final := x]> m) = parts_of final l m.
Proof.
  unfold parts_of. apply list_fmap_ext. intros _ i _.
  by rewrite lookup_insert_ne by (apply not_eq_sym, part_path_ne).
Qed.

Lemma for_each_cons {A} (x : A) (xs : list A) (f : A → M unit) w :
  for_each (x :: xs) f w
  = match f x w with
    | (Ok _, w') => for_each xs f w'
    | (Raise e, w') => (Raise e, w')
    end.
Proof. reflexivity. Qed.

Lemma merge_part_run i w :
  merge_part final i w
  = match fs w !! part_path_of final i with
    | Some data =>
        (Ok (), World (<[final := default [] (fs w !! final) ++ data]> (fs w))
                      (pbar w) (trace w))
    | None => (Raise (FileNotFoundError (part_path_of final i)), w)
    end.
Proof.
  unfold merge_part, mbind, M_bind, path_exists, file_read, file_write, raise.
  destruct (fs w !! part_path_of final i) as [d|] eqn:Hd; msimpl; [|done].
  by rewrite Hd.
Qed.

Lemma cleanup_part_run i w :
  cleanup_part final i w
  = (Ok (), World (delete (part_path_of final i) (fs w)) (pbar w) (trace w)).
Proof.
  unfold cleanup_part, mbind, M_bind, path_exists, os_remove, pass.
  destruct (fs w !! part_path_of final i) as [d|] eqn:Hd; msimpl.
  - by rewrite Hd.
  - rewrite delete_id by done. by destruct w.
Qed.

(** The reading loop of lines 70-75 when every part named in [l] exists. *)
Lemma merge_loop_ok l acc w :
  fs w !! final = Some acc →
  (∀ i, i ∈ l → is_Some (fs w !! part_path_of final i)) →
  for_each l (merge_part final) w
  = (Ok (), World (<[final := acc ++ concat (parts_of final l (fs w))]> (fs w))
                  (pbar w) (trace w)).
Proof.
  revert acc w. induction l as [|i l IH]; intros acc w Hacc Hall.
  - simpl. rewrite app_nil_r, insert_id by done. by destruct w.
  - destruct (Hall i) as [d Hd]; [by left|].
    rewrite for_each_cons, merge_part_run, Hd, Hacc. simpl default.
    erewrite IH; msimpl.
    + rewrite insert_insert_eq, parts_of_insert_final. simpl. rewrite ?Hd. simpl.
      by rewrite <- app_assoc.
    + apply lookup_insert_eq.
    + intros j Hj. rewrite lookup_insert_ne by (apply not_eq_sym, part_path_ne).
      apply Hall. by right.
Qed.

(** The reading loop when the parts of [l1] exist and the next one does not. *)
Lemma merge_loop_missing l1 k l2 acc w :
  fs w !! final = Some acc →
  (∀ i, i ∈ l1 → is_Some (fs w !! part_path_of final i)) →
  fs w !! part_path_of final k = None →
  for_each (l1 ++ k :: l2) (merge_part final) w
  = (Raise (FileNotFoundError (part_path_of final k)),
     World (<[final := acc ++ concat (parts_of final l1 (fs w))]> (fs w))
           (pbar w) (trace w)).
Proof.
  revert acc w. induction l1 as [|i l1 IH]; intros acc w Hacc Hall Hk.
  - simpl app. rewrite for_each_cons, merge_part_run, Hk.
    simpl. rewrite app_nil_r, insert_id by done. by destruct w.
  - destruct (Hall i) as [d Hd]; [by left|].
    simpl app. rewrite for_each_cons, merge_part_run, Hd, Hacc. simpl default.
    erewrite IH; msimpl.
    + rewrite insert_insert_eq, parts_of_insert_final. simpl. rewrite ?Hd. simpl.
      by rewrite <- app_assoc.
    + apply lookup_insert_eq.
    + intros j Hj. rewrite lookup_insert_ne by (apply not_eq_sym, part_path_ne).
      apply Hall. by right.
    + by rewrite lookup_insert_ne by (apply not_eq_sym, part_path_ne).
Qed.

(** The cleanup loop of lines 79-82 never raises. *)
Lemma cleanup_loop l w :
  for_each l (cleanup_part final) w
  = (Ok (), World (remove_parts final l (fs w)) (pbar w) (trace w)).
Proof.
  revert w. induction l as [|i l IH]; intros w; [by destruct w|].
  rewrite for_each_cons, cleanup_part_run, IH. msimpl.
  by rewrite remove_parts_delete.
Qed.

(** Every run of the merge step ends with the cleanup pass. *)
Lemma merge_run_cleanup N w :
  ∃ r w1, _merge_files final N w
    = (r, World (remove_parts final (seqZ 0 N) (fs w1)) (pbar w1)
                (trace w1 ++ [PrintCleaning])).
Proof.
  unfold _merge_files, try_finally. unfold mbind at 1. unfold M_bind at 1.
  cbn [emit].
  destruct ((open_wb final ;; for_each (seqZ 0 N) (merge_part final))
              (World (fs w) (pbar w) (trace w ++ [PrintMerging N final])))
    as [r w1] eqn:Hbody.
  unfold mbind at 1. unfold M_bind at 1. cbn [emit].
  rewrite cleanup_loop. msimpl. by exists r, w1.
Qed.

Lemma merge_run_ok N w :
  (∀ i, 0 ≤ i < N → is_Some (fs w !! part_path_of final i)) →
  _merge_files final N w
  = (Ok (),
     World (remove_parts final (seqZ 0 N)
              (<[final := concat (parts_of final (seqZ 0 N) (fs w))]> (fs w)))
           (pbar w) (trace w ++ [PrintMerging N final; PrintCleaning])).
Proof.
  intros Hall. unfold _merge_files, try_finally.
  unfold mbind at 1. unfold M_bind at 1. cbn [emit].
  unfold mbind at 1. unfold M_bind at 1. cbn [open_wb].
  erewrite (merge_loop_ok _ []); msimpl.
  - unfold mbind at 1. unfold M_bind at 1. cbn [emit].
    rewrite cleanup_loop. msimpl.
    by rewrite insert_insert_eq, parts_of_insert_final, <- app_assoc.
  - apply lookup_insert_eq.
  - intros i Hi%elem_of_seqZ.
    rewrite lookup_insert_ne by (apply not_eq_sym, part_path_ne).
    apply Hall. lia.
Qed.

Lemma merge_run_missing N k w :
  0 ≤ k < N →
  (∀ i, 0 ≤ i < k → is_Some (fs w !! part_path_of final i)) →
  fs w !! part_path_of final k = None →
  _merge_files final N w
  = (Raise (FileNotFoundError (part_path_of final k)),
     World (remove_parts final (seqZ 0 N)
              (<[final := concat (parts_of final (seqZ 0 k) (fs w))]> (fs w)))
           (pbar w) (trace w ++ [PrintMerging N final; PrintCleaning])).
Proof.
  intros Hk Hall Hmiss. unfold _merge_files, try_finally.
  unfold mbind at 1. unfold M_bind at 1. cbn [emit].
  unfold mbind at 1. unfold M_bind at 1. cbn [open_wb].
  replace N with (k + (N - k)) at 1 by lia.
  rewrite seqZ_app by lia. rewrite (seqZ_cons (0 + k)) by lia.
  erewrite (merge_loop_missing _ _ _ []); msimpl.
  - unfold mbind at 1. unfold M_bind at 1. cbn [emit].
    rewrite cleanup_loop. msimpl.
    by rewrite insert_insert_eq, parts_of_insert_final, <- app_assoc.
  - apply lookup_insert_eq.
  - intros i Hi%elem_of_seqZ.
    rewrite lookup_insert_ne by (apply not_eq_sym, part_path_ne).
    apply Hall. lia.
  - by rewrite lookup_insert_ne by (apply not_eq_sym, part_path_ne).
Qed.

End Merge.

(** Either every index below [N] satisfies [P], or there is a first one
    that does not. *)
Lemma first_failing (P : Z → Prop) `{!∀ i, Decision (P i)} (N : Z) :
  (∀ i, 0 ≤ i < N → P i)
  ∨ ∃ k, 0 ≤ k < N ∧ ¬ P k ∧ ∀ i, 0 ≤ i < k → P i.
Proof.
  destruct (decide (N ≤ 0)) as [|Hpos]; [left; intros; lia|].
  replace N with (Z.of_nat (Z.to_nat N)) by lia.
  induction (Z.to_nat N) as [|n IH]; [left; intros; lia|].
  destruct IH as [Hall|(k & Hk & Hnk & Hbelow)].
  - destruct (decide (P (Z.of_nat n))) as [HP|HP].
    + left. intros i Hi. destruct (decide (i = Z.of_nat n)) as [->|]; [done|].
      apply Hall. lia.
    + right. exists (Z.of_nat n). split; [lia|]. split; [done|]. exact Hall.
  - right. exists k. split; [lia|]. by split.
Qed.

(** C7. Whatever way the merge step ends, by returning or by raising, the
    cleanup pass has run: it is the last thing the step printed, and no
    part store <final>.part0 .. <final>.part(N-1) exists afterwards.  The
    step either returns or raises the missing-part error. *)
Theorem merge_cleans_up_on_every_exit (final : string) (N : Z) (w : world) (i : Z) :
  0 ≤ i < N →
  let out := _merge_files final N w in
  fs out.2 !! part_path_of final i = None
  ∧ last (trace out.2) = Some PrintCleaning
  ∧ (out.1 = Ok ()
     ∨ ∃ k, 0 ≤ k < N ∧ out.1 = Raise (FileNotFoundError (part_path_of final k))).
Proof.
  intros Hi out. subst out.
  destruct (merge_run_cleanup final N w) as (r & w1 & Hrun).
  split; [|split].
  - rewrite Hrun. simpl. apply remove_parts_lookup_in, elem_of_seqZ. lia.
  - rewrite Hrun. simpl. apply last_snoc.
  - destruct (first_failing (λ j, is_Some (fs w !! part_path_of final j)) N)
      as [Hall|(k & Hk & Hnone & Hbelow)].
    + left. by rewrite merge_run_ok.
    + right. exists k. split; [done|].
      rewrite (merge_run_missing final N k); [done..|].
      by apply eq_None_not_Some.
Qed.

(** An instance: part 0 present, part 1 missing, part 2 present; the merge
    raises and all three part paths are free afterwards. *)
Lemma merge_cleans_up_on_every_exit_witness :
  let w := World {[ "f.part0" := ["a"%byte]; "f.part2" := ["c"%byte] ]} 0 [] in
  (_merge_files "f" 3 w).1 = Raise (FileNotFoundError "f.part1")
  ∧ fs (_merge_files "f" 3 w).2 !! "f.part2" = None.
Proof.
  intros w.
  destruct (merge_cleans_up_on_every_exit "f" 3 w 2 ltac:(lia)) as (Hgone & _).
  split; [vm_compute; reflexivity | exact Hgone].
Defined.

(** ** The worker pool *)

Lemma sumZ_app l1 l2 : sumZ (l1 ++ l2) = sumZ l1 + sumZ l2.
Proof. induction l1 as [|x l1 IH]; simpl; [done | rewrite IH; lia]. Qed.

Lemma sumZ_perm l1 l2 : l1 ≡ₚ l2 → sumZ l1 = sumZ l2.
Proof. induction 1; simpl; lia. Qed.

Lemma stream_requests_app tr1 tr2 :
  stream_requests (tr1 ++ tr2) = stream_requests tr1 ++ stream_requests tr2.
Proof. apply omap_app. Qed.

Section Pool.
Context (E : env) (self : YandexDiskDownloader).
Implicit Types (t : string * Z * Z * string) (ts : list (string * Z * Z * string)).
Implicit Types (w : world).

Lemma completion_order_perm {A} n step (pending : list A) :
  length pending = n → completion_order E n step pending ≡ₚ pending.
Proof.
  revert step pending. induction n as [|n IH]; intros step pending Hlen.
  - by destruct pending.
  - simpl. set (k := (scheduler E step `mod` length pending)%nat).
    assert (Hk : (k < length pending)%nat).
    { apply Nat.mod_upper_bound. lia. }
    destruct (lookup_lt_is_Some_2 pending k Hk) as [t Ht]. rewrite Ht.
    etrans; [|symmetry; by apply (delete_Permutation pending k t)].
    constructor. apply IH. rewrite length_delete by eauto. lia.
Qed.

Lemma as_completed_perm {A} (submitted : list A) :
  as_completed E submitted ≡ₚ submitted.
Proof. by apply completion_order_perm. Qed.

(** Running a list of fetches, one future per task. *)
Lemma run_futures ts w :
  ∃ w', mapM (λ args, capture (_download_chunk E args)) ts w
          = (Ok (fetch_result E <$> ts), w')
    ∧ (∃ evs, trace w' = trace w ++ evs ∧ Forall is_fetch_event evs
              ∧ stream_requests evs = request_of <$> ts)
    ∧ (∀ p, (∀ t, t ∈ ts → p ≠ t.2) → fs w' !! p = fs w !! p)
    ∧ pbar w ≤ pbar w'
    ∧ (NoDup (ts.*2) → ∀ t, t ∈ ts →
         match fetch_result E t with
         | Ok true => fs w' !! t.2 = Some (delivered (response_of E t))
         | Ok false => fs w' !! t.2 = None
         | Raise _ => True
         end)
    ∧ ((∀ t, t ∈ ts → fetch_result E t = Ok true) →
         pbar w' = pbar w
           + sumZ ((λ t, Z.of_nat (length (delivered (response_of E t)))) <$> ts)).
Proof.
  revert w. induction ts as [|t ts IH]; intros w.
  - exists w. split; [done|]. split.
    { exists []. by rewrite app_nil_r. }
    split; [done|]. split; [lia|]. split; [by intros _ t ?%elem_of_nil|].
    intros _. simpl. lia.
  - pose proof (download_chunk_frame E t w) as ((evs1 & Htr1 & Hev1 & Hreq1) & Hfr1 & Hpb1 & Hres1).
    pose proof (download_chunk_result E t w) as Hr1.
    destruct (_download_chunk E t w) as [r1 w1] eqn:Hrun1. simpl in *.
    destruct (IH w1) as (w' & Hrun & (evs & Htr & Hev & Hreq) & Hfr & Hpb & Hres & Hsum).
    exists w'. split.
    { cbn [mapM]. unfold mbind at 1. unfold M_bind at 1. unfold capture at 1.
      rewrite Hrun1. unfold mbind at 1. unfold M_bind at 1. rewrite Hrun.
      simpl. by rewrite Hr1. }
    split.
    { exists (evs1 ++ evs). rewrite Htr, Htr1, app_assoc. split; [done|].
      split; [by apply Forall_app|]. by rewrite stream_requests_app, Hreq1, Hreq. }
    split.
    { intros p Hp. rewrite Hfr by (intros t' Ht'; apply Hp; by right).
      apply Hfr1, Hp. by left. }
    split; [lia|]. split.
    { intros Hnd t' Ht'. apply (NoDup_cons (t.2) (ts.*2)) in Hnd as [Hnotin Hnd].
      apply elem_of_cons in Ht' as [->|Ht']; [|by apply Hres].
      rewrite Hfr; [by destruct (fetch_result E t) as [[|]|]; [apply Hres1|..]|].
      intros t'' Ht'' Heq. apply Hnotin. rewrite Heq. by apply list_elem_of_fmap_2. }
    intros Hall. rewrite Hsum by (intros t' Ht'; apply Hall; by right).
    rewrite (Hall t) in Hres1 by (by left). destruct Hres1 as [_ ->].
    simpl. by rewrite Z.add_assoc.
Qed.

(** Reading the futures changes nothing; it raises the first stored
    exception, if there is one. *)
Lemma collect_results (rs : list (result bool)) w :
  ∃ r, mapM future_result rs w = (r, w)
    ∧ match r with
      | Ok bs => rs = Ok <$> bs
      | Raise e => Raise e ∈ rs
      end.
Proof.
  induction rs as [|[b|e] rs (r & Hrun & Hr)].
  - by exists (Ok []).
  - cbn [mapM]. unfold mbind at 1. unfold M_bind at 1. cbn [future_result].
    unfold mret at 1. unfold M_ret at 1.
    unfold mbind at 1. unfold M_bind at 1. rewrite Hrun.
    destruct r as [bs|e].
    + exists (Ok (b :: bs)). split; [done|]. simpl. by rewrite Hr.
    + exists (Raise e). split; [done|]. by right.
  - exists (Raise e). split; [done|]. by left.
Qed.

(** The pool: every submitted task runs exactly once, whatever the others
    do, and only then are the results read. *)
Lemma run_pool_spec ts w :
  1 ≤ num_threads self →
  ∃ r w', run_pool E self ts w = (r, w')
    ∧ match r with
      | Ok bs => Ok <$> bs = fetch_result E <$> as_completed E ts
      | Raise e => ∃ t, t ∈ ts ∧ fetch_result E t = Raise e
      end
    ∧ (∃ evs, trace w' = trace w ++ evs ∧ Forall is_fetch_event evs
              ∧ stream_requests evs ≡ₚ request_of <$> ts)
    ∧ (∀ p, (∀ t, t ∈ ts → p ≠ t.2) → fs w' !! p = fs w !! p)
    ∧ pbar w ≤ pbar w'
    ∧ (NoDup (ts.*2) → ∀ t, t ∈ ts →
         match fetch_result E t with
         | Ok true => fs w' !! t.2 = Some (delivered (response_of E t))
         | Ok false => fs w' !! t.2 = None
         | Raise _ => True
         end)
    ∧ ((∀ t, t ∈ ts → fetch_result E t = Ok true) →
         pbar w' = pbar w
           + sumZ ((λ t, Z.of_nat (length (delivered (response_of E t)))) <$> ts)).
Proof.
  intros HN. unfold run_pool. rewrite bool_decide_eq_false_2 by lia.
  pose proof (as_completed_perm ts) as Hperm.
  destruct (run_futures (as_completed E ts) w)
    as (w' & Hrun & (evs & Htr & Hev & Hreq) & Hfr & Hpb & Hres & Hsum).
  destruct (collect_results (fetch_result E <$> as_completed E ts) w')
    as (r & Hcol & Hr).
  exists r, w'. split.
  { unfold mbind at 1. unfold M_bind at 1. by rewrite Hrun. }
  split.
  { destruct r as [bs|e]; [done|].
    apply list_elem_of_fmap in Hr as (t & Ht & Hin).
    exists t. split; [by rewrite <- Hperm | done]. }
  split.
  { exists evs. split; [done|]. split; [done|]. by rewrite Hreq, Hperm. }
  split.
  { intros p Hp. apply Hfr. intros t Ht. apply Hp. by rewrite <- Hperm. }
  split; [done|]. split.
  { intros Hnd t Ht. apply Hres; [by rewrite Hperm | by rewrite Hperm]. }
  intros Hall. rewrite Hsum by (intros t Ht; apply Hall; by rewrite <- Hperm).
  f_equal. apply sumZ_perm. by rewrite Hperm.
Qed.

End Pool.

(** ** The orchestrator *)

Lemma forallb_results (bs : list bool) (rs : list (result bool)) :
  Ok <$> bs = rs →
  forallb id bs = true ↔ ∀ r, r ∈ rs → r = Ok true.
Proof.
  intros <-. induction bs as [|b bs IH]; simpl.
  - split; [by intros _ r ?%elem_of_nil | done].
  - rewrite andb_true_iff, IH. split.
    + intros [Hb Hall] r [->|Hr]%elem_of_cons; [by destruct b | by apply Hall].
    + intros Hall. split.
      * specialize (Hall (Ok b) ltac:(by left)). by destruct b; simplify_eq.
      * intros r Hr. apply Hall. by right.
Qed.

Lemma forallb_results_false (bs : list bool) (rs : list (result bool)) :
  Ok <$> bs = rs → forallb id bs = false → Ok false ∈ rs.
Proof.
  intros <-. induction bs as [|[|] bs IH]; simpl; [done| |by left].
  intros Hbs. right. by apply IH.
Qed.

Section Orchestrator.
Context (E : env) (self : YandexDiskDownloader).
Implicit Types (w : world).
Let N := num_threads self.

Lemma elem_of_tasks url sp S cs t :
  t ∈ tasks self url sp S cs ↔ ∃ i, 0 ≤ i < N ∧ t = task_args self url sp S cs i.
Proof.
  unfold tasks. rewrite list_elem_of_fmap. fold N. split.
  - intros (i & -> & Hi%elem_of_seqZ). exists i. split; [lia | done].
  - intros (i & Hi & ->). exists i. split; [done|]. apply elem_of_seqZ. lia.
Qed.

Lemma task_args_part url sp S cs i :
  (task_args self url sp S cs i).2 = part_path_of sp i.
Proof. unfold task_args. by destruct (chunk_range self S cs i). Qed.

Lemma task_args_request url sp S cs i :
  request_of (task_args self url sp S cs i) = (url, Some (chunk_range self S cs i)).
Proof. unfold task_args, request_of. by destruct (chunk_range self S cs i). Qed.

Lemma tasks_parts url sp S cs :
  (tasks self url sp S cs).*2 = part_path_of sp <$> seqZ 0 N.
Proof.
  unfold tasks. rewrite <- list_fmap_compose. apply list_fmap_ext.
  intros _ i _. apply task_args_part.
Qed.

Lemma tasks_NoDup url sp S cs : NoDup (tasks self url sp S cs).*2.
Proof.
  rewrite tasks_parts. apply NoDup_fmap_2; [|apply NoDup_seqZ].
  intros i j. apply part_path_inj.
Qed.

Lemma tasks_not_final url sp S cs t :
  t ∈ tasks self url sp S cs → sp ≠ t.2.
Proof.
  intros (i & _ & ->)%elem_of_tasks. rewrite task_args_part.
  apply not_eq_sym, part_path_ne.
Qed.

Lemma tasks_requests url sp S :
  request_of <$> tasks self url sp S (S `div` N)
  = (λ r, (url, Some r)) <$> plan self S.
Proof.
  rewrite plan_eq. unfold tasks. rewrite <- !list_fmap_compose.
  apply list_fmap_ext. intros _ i _. apply task_args_request.
Qed.

(** The resolver only talks to the API and probes the URL. *)
Lemma get_download_info_frame w r w1 :
  _get_download_info E self w = (r, w1) →
  fs w1 = fs w ∧ pbar w1 = pbar w
  ∧ ∃ evs, trace w1 = trace w ++ evs ∧ stream_requests evs = [].
Proof.
  unfold _get_download_info, session_get_api, session_head, raise_for_status,
    of_result, future_result, pass, mbind, M_bind, emit, raise, mret, M_ret.
  intros Hrun.
  repeat (case_match; simplify_eq/=);
    (split; [done|]; split; [done|]);
    rewrite <- ?app_assoc; eexists; (split; [reflexivity|]); reflexivity.
Qed.

(** The whole behaviour of the fallback download, case by case. *)
Lemma simple_download_run url sp S w :
  _simple_download E url sp S w =
    let tr := trace w ++ [EvStreamGet url None] in
    match net_get E url None with
    | Raise e => (Raise e, World (fs w) 0 tr)
    | Ok response =>
        if bool_decide (400 ≤ status_code response < 600)
        then (Raise (RequestException "HTTPError"), World (fs w) 0 tr)
        else
          let n := Z.of_nat (length (concat (body response))) in
          let written := <[sp := concat (body response)]> (fs w) in
          match body_error response with
          | None => (Ok (), World written n (tr ++ [PrintSimpleComplete]))
          | Some e => (Raise e, World written n tr)
          end
    end.
Proof.
  unfold _simple_download, session_get, raise_for_status.
  unfold mbind at 1. unfold M_bind at 1. cbn [tqdm_new].
  unfold mbind at 1. unfold M_bind at 1. unfold mbind at 1. unfold M_bind at 1.
  cbn [emit]. unfold mbind, M_bind, of_result, future_result.
  destruct (net_get E url None) as [response|e]; msimpl; [|done].
  case_bool_decide as Hst; msimpl; [done|].
  erewrite write_stream_run by (msimpl; apply lookup_insert_eq).
  msimpl. rewrite insert_insert_eq.
  by destruct (body_error response).
Qed.

(** [download] catches whatever its body raises and prints it. *)
Lemma download_run w :
  download E self w =
    match download_body E self w with
    | (Ok _, w') => (Ok (), w')
    | (Raise e, w') =>
        (Ok (), World (fs w') (pbar w')
                  (trace w' ++ [if is_RequestException e then PrintError e
                                else PrintUnexpected e]))
    end.
Proof.
  unfold download, try_except.
  destruct (download_body E self w) as [[[]|e] w']; [done|].
  by destruct e.
Qed.

Section Resolved.
Context (w w1 : world) (url file_name : string) (S : Z) (supports_ranges : bool).
Context (Hinfo : _get_download_info E self w
                 = (Ok (url, file_name, S, supports_ranges), w1)).
Let sp := os_path_join (download_location self) file_name.

Lemma download_body_fallback :
  S = 0 ∨ supports_ranges = false →
  download_body E self w
  = _simple_download E url sp S
      (World (fs w1) (pbar w1) (trace w1 ++ [PrintFallback])).
Proof.
  intros Hcond. unfold download_body. unfold mbind at 1. unfold M_bind at 1.
  rewrite Hinfo. fold sp.
  replace (bool_decide (S = 0) || negb supports_ranges) with true; [done|].
  destruct Hcond as [->| ->]; [done|]. by rewrite orb_true_r.
Qed.

Lemma download_body_chunked :
  S ≠ 0 → supports_ranges = true → 1 ≤ N →
  download_body E self w
  = match run_pool E self (tasks self url sp S (S `div` N))
            (World (fs w1) 0 (trace w1 ++ [PrintDownloading file_name S N])) with
    | (Raise e, w2) => (Raise e, w2)
    | (Ok results, w2) =>
        if negb (forallb id results)
        then (Raise (ConnectionError
                "One or more parts failed to download. Aborting merge."), w2)
        else (_merge_files sp N ;; emit PrintDownloadComplete) w2
    end.
Proof.
  intros HS -> HN. unfold download_body. unfold mbind at 1. unfold M_bind at 1.
  rewrite Hinfo. fold sp N.
  rewrite bool_decide_eq_false_2 by done. cbn [negb orb].
  unfold mbind at 1. unfold M_bind at 1. cbn [emit].
  unfold mbind at 1. unfold M_bind at 1.
  rewrite bool_decide_eq_false_2 by lia.
  unfold mret at 1. unfold M_ret at 1.
  unfold mbind at 1. unfold M_bind at 1. cbn [tqdm_new fs pbar trace].
  unfold mbind at 1. unfold M_bind at 1.
  destruct (run_pool E self _ _) as [[results|e] w2]; [|done].
  by destruct (forallb id results).
Qed.

(** The chunked path up to the judgment of line 115: every task has run;
    then either all fetches returned [True] and the merge step is entered,
    or some fetch did not and the body raises without merging. *)
Lemma chunked_run :
  S ≠ 0 → supports_ranges = true → 1 ≤ N →
  let ts := tasks self url sp S (S `div` N) in
  ∃ w2 evs,
    trace w2 = trace w1 ++ PrintDownloading file_name S N :: evs
    ∧ Forall is_fetch_event evs
    ∧ stream_requests evs ≡ₚ request_of <$> ts
    ∧ (∀ p, (∀ i, 0 ≤ i < N → p ≠ part_path_of sp i) → fs w2 !! p = fs w !! p)
    ∧ 0 ≤ pbar w2
    ∧ (((∀ t, t ∈ ts → fetch_result E t = Ok true)
        ∧ (∀ i, 0 ≤ i < N →
             fs w2 !! part_path_of sp i
             = Some (delivered (response_of E (task_args self url sp S (S `div` N) i))))
        ∧ pbar w2
          = sumZ ((λ t, Z.of_nat (length (delivered (response_of E t)))) <$> ts)
        ∧ download_body E self w
          = (_merge_files sp N ;; emit PrintDownloadComplete) w2)
       ∨ ((∃ t, t ∈ ts ∧ fetch_result E t ≠ Ok true)
          ∧ ∃ e, download_body E self w = (Raise e, w2)
              ∧ (e = ConnectionError
                       "One or more parts failed to download. Aborting merge."
                 ∨ ∃ t, t ∈ ts ∧ fetch_result E t = Raise e))).
Proof.
  intros HS Hsr HN ts.
  rewrite download_body_chunked by done. fold ts.
  destruct (get_download_info_frame _ _ _ Hinfo) as (Hfs & _ & _).
  destruct (run_pool_spec E self ts
              (World (fs w1) 0 (trace w1 ++ [PrintDownloading file_name S N])) HN)
    as (r & w2 & Hrun & Hr & (evs & Htr & Hev & Hreq) & Hfr & Hpb & Hres & Hsum).
  simpl in Htr, Hfr, Hpb, Hsum. rewrite Hrun.
  exists w2, evs. split; [by rewrite Htr, <- app_assoc|].
  split; [done|]. split; [done|]. split.
  { intros p Hp. rewrite Hfr, Hfs; [done|].
    intros t (i & Hi & ->)%elem_of_tasks. rewrite task_args_part. by apply Hp. }
  split; [done|].
  pose proof (as_completed_perm E ts) as Hperm.
  destruct r as [bs|e].
  - destruct (forallb id bs) eqn:Hbs; cbn [negb].
    + left. pose proof (proj1 (forallb_results _ _ Hr) Hbs) as Htrue.
      assert (Hall : ∀ t, t ∈ ts → fetch_result E t = Ok true).
      { intros t Ht. apply Htrue, list_elem_of_fmap. exists t. by rewrite Hperm. }
      split; [done|]. split; [|split; [|done]].
      * intros i Hi.
        assert (Hin : task_args self url sp S (S `div` N) i ∈ ts)
          by (apply elem_of_tasks; eauto).
        specialize (Hres (tasks_NoDup url sp S _) _ Hin).
        rewrite (Hall _ Hin), task_args_part in Hres. done.
      * rewrite Hsum by done. lia.
    + right. split.
      * apply (forallb_results_false _ _ Hr) in Hbs.
        apply list_elem_of_fmap in Hbs as (t & Ht & Hin).
        exists t. split; [by rewrite <- Hperm | by rewrite <- Ht].
      * eexists. split; [done|]. by left.
  - right. destruct Hr as (t & Ht & Hraise). split.
    + exists t. split; [done|]. by rewrite Hraise.
    + exists e. split; [done|]. right. eauto.
Qed.

End Resolved.
End Orchestrator.

(** An exception that leaves a worker is not a [RequestException]. *)
Lemma fetch_result_raise E t e :
  fetch_result E t = Raise e → is_RequestException e = false.
Proof.
  destruct t as [[[url s] e'] pp]. unfold fetch_result.
  rewrite download_chunk_run. cbv zeta. simpl.
  destruct (net_get E url (Some (s, e'))) as [response|ex].
  - case_bool_decide; [done|].
    destruct (body_error response) as [ex|]; [|done].
    destruct (is_RequestException ex) eqn:Hex; [done|]. by intros [= <-].
  - destruct (is_RequestException ex) eqn:Hex; [done|]. by intros [= <-].
Qed.

Lemma fetch_event_not_plain_get ev :
  is_fetch_event ev → ∀ u, ev ≠ EvStreamGet u None.
Proof. by destruct ev as [| |? []| | | | | | | | |]. Qed.

(** C2. On the chunked path, when one chunk fetch returns [False] the job
    does not merge and produces no final file, whatever the other chunks
    did: the destination path is left as it was, and between the line that
    announces the download and the diagnostic of the abort the trace holds
    only fetch events, among them the request of every one of the N
    chunks, so every fetcher had run before the failure was judged. *)
Theorem failed_chunk_aborts_job (E : env) (self : YandexDiskDownloader)
    (w w1 : world) (url file_name : string) (S : Z) (t : string * Z * Z * string) :
  _get_download_info E self w = (Ok (url, file_name, S, true), w1) →
  S ≠ 0 → 1 ≤ num_threads self →
  let N := num_threads self in
  let sp := os_path_join (download_location self) file_name in
  let ts := tasks self url sp S (S `div` N) in
  t ∈ ts → fetch_result E t = Ok false →
  let out := download E self w in
  out.1 = Ok ()
  ∧ fs out.2 !! sp = fs w !! sp
  ∧ ∃ evs e,
      trace out.2
      = trace w1 ++ PrintDownloading file_name S N :: evs ++ [PrintUnexpected e]
      ∧ Forall is_fetch_event evs
      ∧ stream_requests evs ≡ₚ request_of <$> ts
      ∧ (e = ConnectionError "One or more parts failed to download. Aborting merge."
         ∨ ∃ t', t' ∈ ts ∧ fetch_result E t' = Raise e).
Proof.
  intros Hinfo HS HN N sp ts Ht Hfalse out. subst out.
  destruct (chunked_run E self w w1 url file_name S true Hinfo HS eq_refl HN)
    as (w2 & evs & Htr & Hev & Hreq & Hfr & _ & Hcase).
  fold N sp ts in Htr, Hreq, Hfr, Hcase.
  destruct Hcase as [(Hall & _)|(_ & e & Hbody & He)].
  { rewrite (Hall t Ht) in Hfalse. done. }
  rewrite download_run, Hbody. simpl.
  assert (Hexn : is_RequestException e = false).
  { destruct He as [->|(t' & _ & Hraise)]; [done|].
    by apply fetch_result_raise in Hraise. }
  rewrite Hexn. split; [done|]. split.
  { apply Hfr. intros i _. apply not_eq_sym, part_path_ne. }
  exists evs, e. split; [|done].
  by rewrite Htr, <- app_assoc.
Qed.

(** An instance: three workers, ten bytes, the connection of the second
    chunk breaks; the two other parts are fetched, nothing is merged. *)
Lemma failed_chunk_aborts_job_witness :
  let out := download (serving abc (flaky_get abc 3)) three_workers empty_world in
  out.1 = Ok () ∧ fs out.2 !! "dl/a.bin" = None.
Proof.
  pose proof (failed_chunk_aborts_job (serving abc (flaky_get abc 3)) three_workers
    empty_world
    (World ∅ 0 [EvApiGet ("https://cloud-api.yandex.net/v1/disk/public/resources/download?public_key=link");
                EvHead "https://host/d?filename=a.bin"])
    "https://host/d?filename=a.bin" "a.bin" 10
    ("https://host/d?filename=a.bin", 3, 5, "dl/a.bin.part1")
    ltac:(vm_compute; reflexivity) ltac:(done) ltac:(simpl; lia)) as H.
  simpl in H.
  destruct H as (Hok & Hfile & _).
  - vm_compute. set_solver.
  - reflexivity.
  - split; [exact Hok | exact Hfile].
Defined.

(** With no worker the chunked path stops before any request is sent:
    [file_size // 0] raises, and so does a pool of negative size. *)
Lemma download_body_no_workers E self w w1 url file_name S :
  _get_download_info E self w = (Ok (url, file_name, S, true), w1) →
  S ≠ 0 → num_threads self ≤ 0 →
  ∃ e n, download_body E self w
         = (Raise e, World (fs w1) n
                       (trace w1 ++ [PrintDownloading file_name S (num_threads self)]))
         ∧ is_RequestException e = false.
Proof.
  intros Hinfo HS HN. unfold download_body. unfold mbind at 1. unfold M_bind at 1.
  rewrite Hinfo. rewrite bool_decide_eq_false_2 by done. cbn [negb orb].
  unfold mbind at 1. unfold M_bind at 1. cbn [emit].
  unfold mbind at 1. unfold M_bind at 1.
  case_bool_decide as H0.
  - by exists ZeroDivisionError, (pbar w1).
  - unfold mret at 1. unfold M_ret at 1.
    unfold mbind at 1. unfold M_bind at 1. cbn [tqdm_new fs pbar trace].
    unfold mbind at 1. unfold M_bind at 1. unfold run_pool.
    rewrite bool_decide_eq_true_2 by done.
    by exists (ValueError "max_workers must be greater than 0"), 0.
Qed.

(** C4. A resolved target of size 0, or without range support, is
    downloaded on the fallback path: after the fallback notice the job
    sends one streamed GET without a Range header and no other, and writes
    to no path but the destination (to which a completed response is
    written whole); no chunk is planned.  Any other target is downloaded on
    the chunked path: the job announces the chunked download, sends no GET
    without a Range header and, with at least one worker, requests exactly
    the ranges of the chunk plan. *)
Theorem fallback_iff_no_size_or_no_ranges (E : env) (self : YandexDiskDownloader)
    (w w1 : world) (url file_name : string) (S : Z) (supports_ranges : bool) :
  _get_download_info E self w = (Ok (url, file_name, S, supports_ranges), w1) →
  let N := num_threads self in
  let sp := os_path_join (download_location self) file_name in
  let out := download E self w in
  (S = 0 ∨ supports_ranges = false →
     (∃ evs, trace out.2 = trace w1 ++ PrintFallback :: EvStreamGet url None :: evs
             ∧ stream_requests evs = [])
     ∧ (∀ p, p ≠ sp → fs out.2 !! p = fs w !! p)
     ∧ (completes (net_get E url None) →
          fs out.2 !! sp = Some (delivered (net_get E url None))))
  ∧ (S ≠ 0 ∧ supports_ranges = true →
     ∃ evs, trace out.2 = trace w1 ++ PrintDownloading file_name S N :: evs
            ∧ Forall (λ ev, ∀ u, ev ≠ EvStreamGet u None) evs
            ∧ (1 ≤ N → stream_requests evs ≡ₚ (λ r, (url, Some r)) <$> plan self S)
            ∧ (N ≤ 0 → stream_requests evs = [])).
Proof.
  intros Hinfo N sp out. subst out.
  destruct (get_download_info_frame _ _ _ _ _ Hinfo) as (Hfs & _ & _).
  split.
  - intros Hcond. rewrite download_run.
    rewrite (download_body_fallback E self w w1 url file_name S supports_ranges Hinfo Hcond).
    fold sp. rewrite simple_download_run. cbv zeta. simpl fs. simpl pbar. simpl trace.
    unfold completes, delivered.
    destruct (net_get E url None) as [response|e]; simpl.
    { case_bool_decide as Hst; simpl.
      - split; [eexists; split; [by rewrite <- !app_assoc | done]|].
        split; [by rewrite Hfs | by intros []].
      - destruct (body_error response) as [e|]; simpl.
        + split; [eexists; split; [by rewrite <- !app_assoc | by destruct e]|].
          split; [|by intros []].
          intros p Hp. by rewrite lookup_insert_ne, Hfs.
        + split; [eexists; split; [by rewrite <- !app_assoc | done]|].
          split; [|intros _; apply lookup_insert_eq].
          intros p Hp. by rewrite lookup_insert_ne, Hfs. }
    split; [eexists; split; [by rewrite <- !app_assoc | by destruct e]|].
    split; [by rewrite Hfs | done].
  - intros [HS ->]. rewrite download_run.
    destruct (decide (1 ≤ N)) as [HN|HN].
    + destruct (chunked_run E self w w1 url file_name S true Hinfo HS eq_refl HN)
        as (w2 & evs & Htr & Hev & Hreq & Hfr & _ & Hcase).
      fold N sp in Htr, Hreq, Hfr, Hcase.
      rewrite tasks_requests in Hreq.
      assert (Hplain : Forall (λ ev, ∀ u, ev ≠ EvStreamGet u None) evs).
      { eapply Forall_impl; [exact Hev|]. apply fetch_event_not_plain_get. }
      destruct Hcase as [(_ & Hparts & _ & Hbody)|(_ & e & Hbody & _)].
      * rewrite Hbody. unfold mbind, M_bind.
        rewrite merge_run_ok by (intros i Hi; rewrite Hparts by done; eauto).
        simpl. rewrite Htr.
        exists (evs ++ [PrintMerging N sp; PrintCleaning; PrintDownloadComplete]).
        split; [by rewrite <- !app_assoc|]. split.
        { apply Forall_app. split; [done|]. by repeat constructor. }
        split; [|lia]. intros _. by rewrite stream_requests_app, app_nil_r.
      * rewrite Hbody. simpl. rewrite Htr.
        exists (evs ++ [if is_RequestException e then PrintError e
                        else PrintUnexpected e]).
        split; [by rewrite <- !app_assoc|]. split.
        { apply Forall_app. split; [done|].
          constructor; [|done]. by destruct (is_RequestException e). }
        split; [|lia]. intros _. rewrite stream_requests_app.
        by destruct (is_RequestException e); rewrite app_nil_r.
    + destruct (download_body_no_workers E self w w1 url file_name S Hinfo HS)
        as (e & n & Hbody & Hexn); [fold N; lia|].
      rewrite Hbody, Hexn. simpl. exists [PrintUnexpected e].
      split; [by rewrite <- app_assoc|]. split; [by repeat constructor|].
      split; [lia | done].
Qed.

(** Instances: a resource of unknown size goes through the fallback path,
    a ten-byte resource with range support through the chunked path. *)
Lemma fallback_iff_no_size_or_no_ranges_witness :
  (∀ p, p ≠ "dl/a.bin" →
     fs (download (serving [] (exact_get abc)) three_workers empty_world).2 !! p = None)
  ∧ fs (download (serving [] (exact_get abc)) three_workers empty_world).2 !! "dl/a.bin"
    = Some abc.
Proof.
  pose proof (fallback_iff_no_size_or_no_ranges (serving [] (exact_get abc))
    three_workers empty_world
    (World ∅ 0 [EvApiGet ("https://cloud-api.yandex.net/v1/disk/public/resources/download?public_key=link");
                EvHead "https://host/d?filename=a.bin"])
    "https://host/d?filename=a.bin" "a.bin" 0 true
    ltac:(vm_compute; reflexivity)) as [Hfallback _].
  destruct Hfallback as (_ & Hframe & Hfile); [by left|].
  split; [exact Hframe|]. apply Hfile. by split; [simpl; lia|].
Defined.

(** C10. [download] never raises: whatever its body raises (a failed
    resolution, the abort after a failed chunk, a missing part at merge
    time, a division by zero workers, or anything else) is caught, printed
    as a diagnostic, and the operation returns normally. *)
Theorem download_never_raises (E : env) (self : YandexDiskDownloader) (w : world) :
  (download E self w).1 = Ok ()
  ∧ ∀ e w', download_body E self w = (Raise e, w') →
      download E self w
      = (Ok (), World (fs w') (pbar w')
                  (trace w' ++ [if is_RequestException e then PrintError e
                                else PrintUnexpected e])).
Proof.
  rewrite download_run. split.
  - by destruct (download_body E self w) as [[[]|e] w'].
  - by intros e w' ->.
Qed.

(** An instance: the API answers 404, the resolution fails, the error is
    printed and [download] returns. *)
Lemma download_never_raises_witness :
  let E := Env (λ _, Ok (ApiResponse 404 (Raise (ValueError "no json"))))
               (λ _, Raise (RequestException "unreachable"))
               (λ _ _, Raise (RequestException "unreachable"))
               (λ _, None) (λ _, None) (λ _, 0%nat) in
  download E three_workers empty_world
  = (Ok (), World ∅ 0
      [EvApiGet "https://cloud-api.yandex.net/v1/disk/public/resources/download?public_key=link";
       PrintError (RequestException "HTTPError")]).
Proof.
  intros E.
  apply (proj2 (download_never_raises E three_workers empty_world)
           (RequestException "HTTPError")
           (World ∅ 0 [EvApiGet "https://cloud-api.yandex.net/v1/disk/public/resources/download?public_key=link"])).
  vm_compute. reflexivity.
Defined.

(** ** Successful jobs *)

Lemma length_concat_sumZ (ls : list bytes) :
  Z.of_nat (length (concat ls)) = sumZ ((λ l, Z.of_nat (length l)) <$> ls).
Proof.
  induction ls as [|l ls IH]; [done|].
  cbn [concat]. rewrite length_app, fmap_cons. cbn [sumZ foldr].
  fold (sumZ ((λ l0 : bytes, Z.of_nat (length l0)) <$> ls)). lia.
Qed.

(** Cutting a resource along the chunk plan and gluing the pieces in plan
    order gives the resource back. *)
Lemma concat_plan_slices (self : YandexDiskDownloader) (S : Z) (resource : bytes) :
  0 < S → 1 ≤ num_threads self → Z.of_nat (length resource) = S →
  concat ((λ r, slice r.1 r.2 resource) <$> plan self S) = resource.
Proof.
  intros HS HN Hlen. set (N := num_threads self) in *.
  destruct (base_bound self S HS HN) as [Hcs Hle]. fold N in Hcs, Hle.
  set (cs := S `div` N) in *.
  assert (Hinner : ∀ n : nat, Z.of_nat n ≤ N - 1 →
    concat ((λ r, slice r.1 r.2 resource)
              <$> (chunk_range self S cs <$> seqZ 0 (Z.of_nat n)))
    = take (Z.to_nat (Z.of_nat n * cs)) resource).
  { induction n as [|n IH]; intros Hn; [done|].
    rewrite seqZ_S, !fmap_app, concat_app, IH by lia.
    rewrite !list_fmap_singleton, chunk_range_inner by (fold N; lia).
    unfold slice. cbn [concat fst snd].
    rewrite app_nil_r, take_take_drop. f_equal. nia. }
  rewrite plan_eq. fold N cs.
  replace N with (Z.of_nat (Datatypes.S (Z.to_nat (N - 1)))) at 1 by lia.
  rewrite seqZ_S, !fmap_app, concat_app, Hinner by lia.
  rewrite !list_fmap_singleton, Z.add_0_l, Z2Nat.id by lia.
  rewrite chunk_range_last. fold N. unfold slice. cbn [concat fst snd].
  rewrite app_nil_r, take_take_drop. apply take_ge. nia.
Qed.

Section Success.
Context (E : env) (self : YandexDiskDownloader).
Context (w w1 : world) (url file_name : string) (S : Z).
Context (Hinfo : _get_download_info E self w = (Ok (url, file_name, S, true), w1)).
Context (HS : S ≠ 0) (HN : 1 ≤ num_threads self).
Let N := num_threads self.
Let sp := os_path_join (download_location self) file_name.
Let ts := tasks self url sp S (S `div` N).

(** What a job leaves behind when every chunk fetch returned [True]. *)
Lemma all_fetched_run :
  (∀ t, t ∈ ts → fetch_result E t = Ok true) →
  let out := download E self w in
  job_succeeded out.2
  ∧ fs out.2 !! sp = Some (concat ((λ t, delivered (response_of E t)) <$> ts))
  ∧ pbar out.2 = sumZ ((λ t, Z.of_nat (length (delivered (response_of E t)))) <$> ts)
  ∧ (∀ i, 0 ≤ i < N → fs out.2 !! part_path_of sp i = None)
  ∧ (∀ p, p ≠ sp → (∀ i, 0 ≤ i < N → p ≠ part_path_of sp i) →
       fs out.2 !! p = fs w !! p).
Proof.
  intros Hall out. subst out.
  destruct (chunked_run E self w w1 url file_name S true Hinfo HS eq_refl HN)
    as (w2 & evs & Htr & Hev & Hreq & Hfr & _ & Hcase).
  fold N sp ts in Htr, Hreq, Hfr, Hcase.
  destruct Hcase as [(_ & Hparts & Hpbar & Hbody)|((t & Ht & Hne) & _)];
    [|by destruct Hne; apply Hall].
  rewrite download_run, Hbody. unfold mbind, M_bind.
  rewrite merge_run_ok by (intros i Hi; rewrite Hparts by done; eauto).
  simpl.
  assert (Hcat : parts_of sp (seqZ 0 N) (fs w2)
                 = (λ t, delivered (response_of E t)) <$> ts).
  { unfold parts_of, ts, tasks. fold N. rewrite <- list_fmap_compose.
    apply list_fmap_ext. intros k i [-> Hk]%lookup_seqZ. simpl.
    by rewrite Hparts by lia. }
  split; [|split; [|split; [|split]]].
  - unfold job_succeeded. simpl.
    apply last_snoc.
  - rewrite remove_parts_lookup_notin
      by (intros i _; apply not_eq_sym, part_path_ne).
    by rewrite lookup_insert_eq, Hcat.
  - done.
  - intros i Hi. apply remove_parts_lookup_in, elem_of_seqZ. lia.
  - intros p Hsp Hp.
    rewrite remove_parts_lookup_notin
      by (intros i Hi%elem_of_seqZ; apply Hp; lia).
    rewrite lookup_insert_ne by done. by apply Hfr.
Qed.

(** A job that printed line 119 had every chunk fetch return [True]. *)
Lemma job_succeeded_all_fetched :
  job_succeeded (download E self w).2 →
  ∀ t, t ∈ ts → fetch_result E t = Ok true.
Proof.
  destruct (chunked_run E self w w1 url file_name S true Hinfo HS eq_refl HN)
    as (w2 & evs & _ & _ & _ & _ & _ & Hcase).
  fold N sp ts in Hcase.
  destruct Hcase as [(Hall & _)|(_ & e & Hbody & _)]; [done|].
  rewrite download_run, Hbody. unfold job_succeeded. simpl.
  rewrite last_snoc. by destruct (is_RequestException e).
Qed.

End Success.

(** ** Round trip *)

(** The claim of C3 fails as stated.  A two-byte file fetched by three
    workers has the chunks [0,-1], [0,-1], [0,1]; a server that ignores the
    two unsatisfiable ranges answers each of them with the whole file, the
    job succeeds, and the final file is the resource three times over. *)
Lemma lenient_server_breaks_round_trip :
  ¬ (∀ (E : env) (self : YandexDiskDownloader) (w w1 : world)
       (url file_name : string) (S : Z) (resource : bytes),
       _get_download_info E self w = (Ok (url, file_name, S, true), w1) →
       S ≠ 0 → 1 ≤ num_threads self →
       net_get E url None = Ok (GetResponse 200 [resource] None) →
       job_succeeded (download E self w).2 →
       fs (download E self w).2 !! os_path_join (download_location self) file_name
       = Some resource).
Proof.
  intros Hclaim.
  specialize (Hclaim (serving ab (lenient_get ab)) three_workers empty_world
    (World ∅ 0 [EvApiGet ("https://cloud-api.yandex.net/v1/disk/public/resources/download?public_key=link");
                EvHead "https://host/d?filename=a.bin"])
    "https://host/d?filename=a.bin" "a.bin" 2 ab
    ltac:(vm_compute; reflexivity) ltac:(done) ltac:(simpl; lia)
    ltac:(reflexivity) ltac:(vm_compute; reflexivity)).
  vm_compute in Hclaim. discriminate Hclaim.
Qed.

(** C3 (amended). The merge step appends the part stores in index order
    0..N-1, unchanged: when all parts exist it returns with the final file
    equal to part 0 ++ part 1 ++ ... ++ part (N-1).  For a successful job
    that is the concatenation, in chunk order, of what the chunk responses
    delivered; it is the remote resource whenever every response delivered
    exactly the bytes of its planned range. *)
Theorem merge_concatenates_in_index_order :
  (∀ (final : string) (N : Z) (w : world),
     (∀ i, 0 ≤ i < N → is_Some (fs w !! part_path_of final i)) →
     let out := _merge_files final N w in
     out.1 = Ok ()
     ∧ fs out.2 !! final = Some (concat (parts_of final (seqZ 0 N) (fs w))))
  ∧ (∀ (E : env) (self : YandexDiskDownloader) (w w1 : world)
       (url file_name : string) (S : Z),
       _get_download_info E self w = (Ok (url, file_name, S, true), w1) →
       S ≠ 0 → 1 ≤ num_threads self →
       let sp := os_path_join (download_location self) file_name in
       let ts := tasks self url sp S (S `div` num_threads self) in
       let out := download E self w in
       job_succeeded out.2 →
       fs out.2 !! sp = Some (concat ((λ t, delivered (response_of E t)) <$> ts))
       ∧ ∀ resource : bytes,
           Z.of_nat (length resource) = S →
           (∀ t, t ∈ ts → delivered (response_of E t) = slice t.1.1.2 t.1.2 resource) →
           fs out.2 !! sp = Some resource).
Proof.
  split.
  - intros final N w Hall out. subst out. rewrite merge_run_ok by done.
    split; [done|]. simpl.
    rewrite remove_parts_lookup_notin
      by (intros i _; apply not_eq_sym, part_path_ne).
    apply lookup_insert_eq.
  - intros E self w w1 url file_name S Hinfo HS HN sp ts out Hsucc.
    pose proof (job_succeeded_all_fetched E self w w1 url file_name S
                  Hinfo HS HN Hsucc) as Hall.
    destruct (all_fetched_run E self w w1 url file_name S Hinfo HS HN Hall)
      as (_ & Hfile & _).
    fold sp ts out in Hfile. split; [done|].
    intros resource Hlen Hexact. rewrite Hfile. f_equal.
    rewrite <- (concat_plan_slices self S resource) by (done || lia).
    f_equal. rewrite <- (tasks_ranges self url sp S), <- list_fmap_compose.
    apply list_fmap_ext. intros k t Ht. apply Hexact.
    by apply list_elem_of_lookup_2 in Ht.
Qed.

(** An instance: ten bytes, three workers, a server that answers every
    range exactly; the final file is the resource. *)
Lemma merge_concatenates_in_index_order_witness :
  fs (download (serving abc (exact_get abc)) three_workers empty_world).2 !! "dl/a.bin"
  = Some abc.
Proof.
  destruct merge_concatenates_in_index_order as [_ Hjob].
  destruct (Hjob (serving abc (exact_get abc)) three_workers empty_world
    (World ∅ 0 [EvApiGet ("https://cloud-api.yandex.net/v1/disk/public/resources/download?public_key=link");
                EvHead "https://host/d?filename=a.bin"])
    "https://host/d?filename=a.bin" "a.bin" 10
    ltac:(vm_compute; reflexivity) ltac:(done) ltac:(simpl; lia)
    ltac:(vm_compute; reflexivity)) as [_ Hres].
  apply (Hres abc); [reflexivity|].
  intros t Ht. vm_compute in Ht.
  repeat (apply elem_of_cons in Ht as [->|Ht]; [reflexivity|]).
  apply elem_of_nil in Ht. destruct Ht.
Defined.

(** ** Progress *)

(** The claim of C9 fails as stated.  In the job of
    [lenient_server_breaks_round_trip] the resolved size is 2 and the bar
    ends at 6: it counts the bytes written, and nothing compares them with
    the size. *)
Lemma lenient_server_breaks_progress_total :
  ¬ (∀ (E : env) (self : YandexDiskDownloader) (w w1 : world)
       (url file_name : string) (S : Z),
       _get_download_info E self w = (Ok (url, file_name, S, true), w1) →
       S ≠ 0 → 1 ≤ num_threads self →
       job_succeeded (download E self w).2 →
       pbar (download E self w).2 = S).
Proof.
  intros Hclaim.
  specialize (Hclaim (serving ab (lenient_get ab)) three_workers empty_world
    (World ∅ 0 [EvApiGet ("https://cloud-api.yandex.net/v1/disk/public/resources/download?public_key=link");
                EvHead "https://host/d?filename=a.bin"])
    "https://host/d?filename=a.bin" "a.bin" 2
    ltac:(vm_compute; reflexivity) ltac:(done) ltac:(simpl; lia)
    ltac:(vm_compute; reflexivity)).
  vm_compute in Hclaim. discriminate Hclaim.
Qed.

(** C9 (amended). No fetch ever lowers the bar.  After a successful
    chunked job the bar equals the number of bytes written over all chunks,
    which is the length of the final file; it equals the resolved size S
    whenever every chunk response delivered as many bytes as its planned
    range holds.  After a successful fallback job the bar equals the number
    of bytes streamed, which is the length of the final file. *)
Theorem progress_counts_written_bytes (E : env) (self : YandexDiskDownloader)
    (w w1 : world) (url file_name : string) (S : Z) (supports_ranges : bool) :
  _get_download_info E self w = (Ok (url, file_name, S, supports_ranges), w1) →
  let sp := os_path_join (download_location self) file_name in
  let ts := tasks self url sp S (S `div` num_threads self) in
  let out := download E self w in
  (∀ t w', pbar w' ≤ pbar (_download_chunk E t w').2)
  ∧ (S ≠ 0 ∧ supports_ranges = true ∧ 1 ≤ num_threads self →
     job_succeeded out.2 →
     pbar out.2 = sumZ ((λ t, Z.of_nat (length (delivered (response_of E t)))) <$> ts)
     ∧ (∃ content, fs out.2 !! sp = Some content
                   ∧ pbar out.2 = Z.of_nat (length content))
     ∧ (0 < S →
        (∀ t, t ∈ ts →
           Z.of_nat (length (delivered (response_of E t))) = range_len (t.1.1.2, t.1.2)) →
        pbar out.2 = S))
  ∧ (S = 0 ∨ supports_ranges = false →
     fallback_succeeded out.2 →
     fs out.2 !! sp = Some (delivered (net_get E url None))
     ∧ pbar out.2 = Z.of_nat (length (delivered (net_get E url None)))).
Proof.
  intros Hinfo sp ts out. split; [|split].
  - intros t w'. apply (download_chunk_frame E t w').
  - intros (HS & -> & HN) Hsucc.
    pose proof (job_succeeded_all_fetched E self w w1 url file_name S
                  Hinfo HS HN Hsucc) as Hall.
    destruct (all_fetched_run E self w w1 url file_name S Hinfo HS HN Hall)
      as (_ & Hfile & Hpbar & _).
    fold sp ts out in Hfile, Hpbar.
    split; [done|]. split.
    + eexists. split; [exact Hfile|].
      by rewrite Hpbar, length_concat_sumZ, <- list_fmap_compose.
    + intros Hpos Hexact. rewrite Hpbar.
      trans (sumZ (range_len <$> plan self S)); [|by apply sumZ_plan].
      rewrite <- (tasks_ranges self url sp S), <- list_fmap_compose.
      f_equal. apply list_fmap_ext. intros k t Ht. apply Hexact.
      by apply list_elem_of_lookup_2 in Ht.
  - intros Hcond. subst out. rewrite download_run.
    rewrite (download_body_fallback E self w w1 url file_name S supports_ranges
               Hinfo Hcond).
    fold sp. rewrite simple_download_run. cbv zeta. unfold fallback_succeeded.
    simpl fs. simpl pbar. simpl trace.
    destruct (net_get E url None) as [response|e]; simpl.
    + case_bool_decide as Hst; simpl; [by rewrite last_snoc|].
      destruct (body_error response) as [e|]; simpl.
      * rewrite last_snoc. by destruct (is_RequestException e).
      * intros _. split; [apply lookup_insert_eq | done].
    + rewrite last_snoc. by destruct (is_RequestException e).
Qed.

(** An instance: ten bytes, three workers, exact range responses; the bar
    ends at 10. *)
Lemma progress_counts_written_bytes_witness :
  pbar (download (serving abc (exact_get abc)) three_workers empty_world).2 = 10.
Proof.
  destruct (progress_counts_written_bytes (serving abc (exact_get abc))
    three_workers empty_world
    (World ∅ 0 [EvApiGet ("https://cloud-api.yandex.net/v1/disk/public/resources/download?public_key=link");
                EvHead "https://host/d?filename=a.bin"])
    "https://host/d?filename=a.bin" "a.bin" 10 true
    ltac:(vm_compute; reflexivity)) as (_ & Hchunked & _).
  destruct Hchunked as (_ & _ & Hexact).
  - split; [done|]. split; [done | simpl; lia].
  - vm_compute. reflexivity.
  - apply Hexact; [lia|].
    intros t Ht. vm_compute in Ht.
    repeat (apply elem_of_cons in Ht as [->|Ht]; [reflexivity|]).
    apply elem_of_nil in Ht. destruct Ht.
Defined.

(** ** The final file *)

(** The claim of C6 fails as stated.  With part 0 on disk and part 1
    missing, merging two parts raises the missing-part error and leaves the
    final file behind, holding part 0; and a fallback stream that breaks
    after its first buffer leaves that buffer at the destination path. *)
Lemma failed_merge_leaves_partial_file :
  ¬ (∀ (final : string) (N : Z) (w : world) (e : exn),
       fs w !! final = None →
       (_merge_files final N w).1 = Raise e →
       fs (_merge_files final N w).2 !! final = None)
  ∧ ¬ (∀ (E : env) (self : YandexDiskDownloader) (w w1 : world)
         (url file_name : string) (S : Z) (supports_ranges : bool),
         _get_download_info E self w = (Ok (url, file_name, S, supports_ranges), w1) →
         S = 0 ∨ supports_ranges = false →
         ¬ fallback_succeeded (download E self w).2 →
         fs (download E self w).2 !! os_path_join (download_location self) file_name
         = fs w !! os_path_join (download_location self) file_name).
Proof.
  split.
  - intros Hclaim.
    specialize (Hclaim "f" 2 part0_only (FileNotFoundError "f.part1")
      ltac:(vm_compute; reflexivity) ltac:(vm_compute; reflexivity)).
    vm_compute in Hclaim. discriminate Hclaim.
  - intros Hclaim.
    specialize (Hclaim (serving [] (flaky_get abc 3)) three_workers empty_world
      (World ∅ 0 [EvApiGet ("https://cloud-api.yandex.net/v1/disk/public/resources/download?public_key=link");
                  EvHead "https://host/d?filename=a.bin"])
      "https://host/d?filename=a.bin" "a.bin" 0 true
      ltac:(vm_compute; reflexivity) ltac:(by left)
      ltac:(vm_compute; discriminate)).
    vm_compute in Hclaim. discriminate Hclaim.
Qed.

(** C6 (amended). On the chunked path the final file is written only
    after every chunk fetch returned [True]: a chunk that did not leaves
    the destination path as it was.  Nothing discards a final file once it
    is open: a merge that finds part k missing raises and leaves the final
    file holding parts 0..k-1, and on the fallback path the final file is
    created as soon as the response status is accepted and keeps whatever
    the stream delivered, complete or not. *)
Theorem final_file_is_not_discarded :
  (∀ (E : env) (self : YandexDiskDownloader) (w w1 : world)
     (url file_name : string) (S : Z) (t : string * Z * Z * string),
     _get_download_info E self w = (Ok (url, file_name, S, true), w1) →
     S ≠ 0 → 1 ≤ num_threads self →
     let sp := os_path_join (download_location self) file_name in
     t ∈ tasks self url sp S (S `div` num_threads self) →
     fetch_result E t ≠ Ok true →
     fs (download E self w).2 !! sp = fs w !! sp)
  ∧ (∀ (final : string) (N k : Z) (w : world),
       0 ≤ k < N →
       (∀ i, 0 ≤ i < k → is_Some (fs w !! part_path_of final i)) →
       fs w !! part_path_of final k = None →
       let out := _merge_files final N w in
       out.1 = Raise (FileNotFoundError (part_path_of final k))
       ∧ fs out.2 !! final = Some (concat (parts_of final (seqZ 0 k) (fs w))))
  ∧ (∀ (E : env) (self : YandexDiskDownloader) (w w1 : world)
       (url file_name : string) (S : Z) (supports_ranges : bool),
       _get_download_info E self w = (Ok (url, file_name, S, supports_ranges), w1) →
       S = 0 ∨ supports_ranges = false →
       let sp := os_path_join (download_location self) file_name in
       let out := download E self w in
       match net_get E url None with
       | Ok response =>
           if bool_decide (400 ≤ status_code response < 600)
           then fs out.2 !! sp = fs w !! sp
           else fs out.2 !! sp = Some (concat (body response))
       | Raise _ => fs out.2 !! sp = fs w !! sp
       end).
Proof.
  split; [|split].
  - intros E self w w1 url file_name S t Hinfo HS HN sp Ht Hne.
    destruct (chunked_run E self w w1 url file_name S true Hinfo HS eq_refl HN)
      as (w2 & evs & _ & _ & _ & Hfr & _ & Hcase).
    fold sp in Hfr, Hcase.
    destruct Hcase as [(Hall & _)|(_ & e & Hbody & _)];
      [by destruct Hne; apply Hall|].
    rewrite download_run, Hbody. simpl.
    apply Hfr. intros i _. apply not_eq_sym, part_path_ne.
  - intros final N k w Hk Hbelow Hmissing out. subst out.
    rewrite (merge_run_missing final N k) by done.
    split; [done|]. simpl.
    rewrite remove_parts_lookup_notin
      by (intros i _; apply not_eq_sym, part_path_ne).
    apply lookup_insert_eq.
  - intros E self w w1 url file_name S supports_ranges Hinfo Hcond sp out.
    subst out.
    destruct (get_download_info_frame _ _ _ _ _ Hinfo) as (Hfs & _ & _).
    rewrite download_run.
    rewrite (download_body_fallback E self w w1 url file_name S supports_ranges
               Hinfo Hcond).
    fold sp. rewrite simple_download_run. cbv zeta. simpl fs. simpl pbar. simpl trace.
    destruct (net_get E url None) as [response|e]; simpl; [|by rewrite Hfs].
    case_bool_decide as Hst; simpl; [by rewrite Hfs|].
    destruct (body_error response) as [e|]; simpl; apply lookup_insert_eq.
Qed.

(** An instance: part 0 present, part 1 missing, two parts to merge. *)
Lemma final_file_is_not_discarded_witness :
  let out := _merge_files "f" 2 part0_only in
  out.1 = Raise (FileNotFoundError "f.part1")
  ∧ fs out.2 !! "f" = Some ["a"%byte].
Proof.
  destruct final_file_is_not_discarded as (_ & Hmerge & _).
  apply (Hmerge "f" 2 1 part0_only).
  - lia.
  - intros i Hi. assert (i = 0) as -> by lia. vm_compute. eauto.
  - vm_compute. reflexivity.
Defined.

(** ** Files smaller than the pool *)

(** The claim of C8 fails as stated.  With two bytes and three workers the
    chunk of index 2 (which is not below the size) is the last one; it
    takes the whole file and is not empty. *)
Lemma last_chunk_is_not_empty :
  ¬ (∀ (self : YandexDiskDownloader) (S : Z) (i : nat) (r : Z * Z),
       0 < S < num_threads self →
       S ≤ Z.of_nat i →
       plan self S !! i = Some r →
       range_len r = 0).
Proof.
  intros Hclaim.
  specialize (Hclaim three_workers 2 2%nat (0, 1)
    ltac:(simpl; lia) ltac:(lia) ltac:(reflexivity)).
  discriminate Hclaim.
Qed.

(** C8 (amended). For 0 < S < N the plan still has N chunks: the base size
    is 0, every chunk but the last is the empty range [0,-1], and the last
    chunk is [0,S-1], the whole file.  No chunk is skipped: the pool sends
    one request per chunk of the plan.  The fetcher has no case of its own
    for an empty range: it sends Range: bytes=0--1 and, as for any chunk,
    returns [True] exactly when the response completes without error
    (writing what the response delivers, nothing if the body is empty) and
    [False] exactly on a transport or HTTP-status failure. *)
Theorem degenerate_plan (self : YandexDiskDownloader) (S : Z) :
  0 < S < num_threads self →
  let N := num_threads self in
  Z.of_nat (length (plan self S)) = N
  ∧ (∀ i : nat, Z.of_nat i < N - 1 → plan self S !! i = Some (0, -1))
  ∧ plan self S !! Z.to_nat (N - 1) = Some (0, S - 1)
  ∧ (∀ (E : env) (url sp : string) (w : world),
       ∃ r w' evs,
         run_pool E self (tasks self url sp S (S `div` N)) w = (r, w')
         ∧ trace w' = trace w ++ evs
         ∧ stream_requests evs ≡ₚ (λ r, (url, Some r)) <$> plan self S)
  ∧ (∀ (E : env) (url part_path : string) (w : world),
       let response := net_get E url (Some (0, -1)) in
       let out := _download_chunk E (url, 0, -1, part_path) w in
       (out.1 = Ok true ↔ completes response)
       ∧ (out.1 = Ok false ↔ transport_failure response)
       ∧ (out.1 = Ok true →
            fs out.2 !! part_path = Some (delivered response)
            ∧ pbar out.2 = pbar w + Z.of_nat (length (delivered response)))).
Proof.
  intros HS N.
  assert (Hcs : S `div` N = 0) by (apply Z.div_small; lia).
  split; [rewrite length_plan; fold N; lia|].
  split; [|split; [|split]].
  - intros i Hi. rewrite plan_lookup by (fold N; lia). fold N. rewrite Hcs.
    rewrite chunk_range_inner by (fold N; lia). f_equal. f_equal; lia.
  - rewrite plan_lookup by (fold N; lia). fold N. rewrite Hcs.
    rewrite Z2Nat.id by lia. rewrite chunk_range_last. fold N.
    f_equal. f_equal. lia.
  - intros E url sp w.
    destruct (run_pool_spec E self (tasks self url sp S (S `div` N)) w)
      as (r & w' & Hrun & _ & (evs & Htr & _ & Hreq) & _); [fold N; lia|].
    exists r, w', evs. split; [done|]. split; [done|].
    by rewrite Hreq, tasks_requests.
  - intros E url part_path w response out.
    pose proof (download_chunk_result E (url, 0, -1, part_path) w) as Hres.
    pose proof (download_chunk_frame E (url, 0, -1, part_path) w)
      as (_ & _ & _ & Hfile).
    fold out in Hres, Hfile. rewrite Hres.
    split; [apply (fetch_result_true E (url, 0, -1, part_path))|].
    split; [apply (fetch_result_false E (url, 0, -1, part_path))|].
    intros Htrue. by rewrite Htrue in Hfile.
Qed.

(** An instance: two bytes, three workers. *)
Lemma degenerate_plan_witness :
  plan three_workers 2 = [(0, -1); (0, -1); (0, 1)]
  ∧ Z.of_nat (length (plan three_workers 2)) = 3.
Proof.
  destruct (degenerate_plan three_workers 2 ltac:(simpl; lia)) as (Hlen & _).
  split; [reflexivity | exact Hlen].
Defined.

(** * Further properties *)

(** Membership of a concrete element in a concrete list. *)
Ltac in_list :=
  vm_compute; repeat first [apply list_elem_of_here | apply list_elem_of_further].

(** ** The resolver *)

(** The whole behaviour of the resolver, case by case. *)
Lemma get_download_info_run E self w :
  _get_download_info E self w =
    let at_ tr := World (fs w) (pbar w) tr in
    let tr1 := trace w ++ [EvApiGet (api_url_of self)] in
    match net_api E (api_url_of self) with
    | Raise e => (Raise e, at_ tr1)
    | Ok response =>
        if bool_decide (400 ≤ api_status response < 600)
        then (Raise (RequestException "HTTPError"), at_ tr1)
        else
          match api_json response with
          | Raise e => (Raise e, at_ tr1)
          | Ok json =>
              match json !! "href" with
              | None => (Raise (KeyError "href"), at_ tr1)
              | Some download_url =>
                  let tr2 := tr1 ++ [EvHead download_url] in
                  match net_head E download_url with
                  | Raise e => (Raise e, at_ tr2)
                  | Ok head_response =>
                      if bool_decide (400 ≤ head_status head_response < 600)
                      then (Raise (RequestException "HTTPError"), at_ tr2)
                      else
                        let file_name :=
                          default "unknown_file" (url_filename E download_url) in
                        let ranges :=
                          bool_decide
                            (default "" (head_headers head_response !! "accept-ranges")
                             = "bytes") in
                        match head_headers head_response !! "content-length" with
                        | None => (Ok (download_url, file_name, 0, ranges), at_ tr2)
                        | Some s =>
                            match py_int E s with
                            | Some z => (Ok (download_url, file_name, z, ranges), at_ tr2)
                            | None => (Raise (ValueError s), at_ tr2)
                            end
                        end
                  end
              end
          end
    end.
Proof.
  unfold _get_download_info, session_get_api, session_head, raise_for_status,
    of_result, future_result, pass, mbind, M_bind, emit, raise, mret, M_ret,
    api_url_of.
  cbv zeta.
  repeat (case_match; simplify_eq/=); reflexivity.
Qed.

Lemma download_unresolved E self w e w1 :
  _get_download_info E self w = (Raise e, w1) →
  download E self w
  = (Ok (), World (fs w) (pbar w) (trace w1 ++ [diagnostic e])).
Proof.
  intros Hinfo.
  destruct (get_download_info_frame _ _ _ _ _ Hinfo) as (Hfs & Hpb & _).
  rewrite download_run. unfold download_body. unfold mbind at 1. unfold M_bind at 1.
  rewrite Hinfo. simpl. by rewrite Hfs, Hpb.
Qed.

(** The whole behaviour of a job on the fallback path, case by case. *)
Lemma download_fallback_run E self w w1 url file_name S supports_ranges :
  _get_download_info E self w = (Ok (url, file_name, S, supports_ranges), w1) →
  S = 0 ∨ supports_ranges = false →
  download E self w =
    let sp := os_path_join (download_location self) file_name in
    let tr := trace w1 ++ [PrintFallback; EvStreamGet url None] in
    match net_get E url None with
    | Raise e => (Ok (), World (fs w) 0 (tr ++ [diagnostic e]))
    | Ok response =>
        if bool_decide (400 ≤ status_code response < 600)
        then (Ok (), World (fs w) 0 (tr ++ [diagnostic (RequestException "HTTPError")]))
        else
          let n := Z.of_nat (length (concat (body response))) in
          let written := <[sp := concat (body response)]> (fs w) in
          match body_error response with
          | None => (Ok (), World written n (tr ++ [PrintSimpleComplete]))
          | Some e => (Ok (), World written n (tr ++ [diagnostic e]))
          end
    end.
Proof.
  intros Hinfo Hcond.
  destruct (get_download_info_frame _ _ _ _ _ Hinfo) as (Hfs & _ & _).
  rewrite download_run.
  rewrite (download_body_fallback E self w w1 url file_name S supports_ranges
             Hinfo Hcond).
  rewrite simple_download_run. cbv zeta. simpl fs. simpl pbar. simpl trace.
  rewrite Hfs. unfold diagnostic.
  destruct (net_get E url None) as [r|e]; simpl.
  - case_bool_decide; simpl; [by rewrite <- !app_assoc|].
    destruct (body_error r) as [e|]; simpl; by rewrite <- !app_assoc.
  - by rewrite <- !app_assoc.
Qed.

(** X1. A failed resolution ends the job before any work on the file:
    [download] returns with the files and the bar as they were, having sent
    no streamed GET, and the last thing it did was print the diagnostic of
    the exception the resolver raised. *)
Theorem failed_resolution_touches_nothing (E : env) (self : YandexDiskDownloader)
    (w w1 : world) (e : exn) :
  _get_download_info E self w = (Raise e, w1) →
  download E self w = (Ok (), World (fs w) (pbar w) (trace w1 ++ [diagnostic e]))
  ∧ stream_requests (trace w1 ++ [diagnostic e]) = stream_requests (trace w).
Proof.
  intros Hinfo. split; [by apply download_unresolved|].
  destruct (get_download_info_frame _ _ _ _ _ Hinfo) as (_ & _ & evs & -> & Hnone).
  rewrite !stream_requests_app, Hnone, app_nil_r.
  unfold diagnostic. destruct (is_RequestException e); apply app_nil_r.
Qed.

(** An instance: the API answers 404 while a stale file sits on disk. *)
Lemma failed_resolution_touches_nothing_witness :
  download api_not_found three_workers part0_only
  = (Ok (), World (fs part0_only) 0
              [EvApiGet (api_url_of three_workers);
               PrintError (RequestException "HTTPError")]).
Proof.
  apply (failed_resolution_touches_nothing api_not_found three_workers part0_only
           (World (fs part0_only) 0 [EvApiGet (api_url_of three_workers)])
           (RequestException "HTTPError")).
  vm_compute. reflexivity.
Defined.

(** X2. How each failure of the resolver is reported.  An error status of
    the API is printed as a request error, and the metadata probe is never
    sent; a JSON answer without "href" is printed as an unexpected
    [KeyError], again without probe; a content-length header that is not an
    integer is printed as an unexpected [ValueError], after the probe.  In
    all three cases nothing else happens. *)
Theorem resolver_failures_are_reported (E : env) (self : YandexDiskDownloader)
    (w : world) (response : api_response) :
  net_api E (api_url_of self) = Ok response →
  let at_ tr := (Ok (), World (fs w) (pbar w) (trace w ++ tr)) in
  (400 ≤ api_status response < 600 →
     download E self w
     = at_ [EvApiGet (api_url_of self); PrintError (RequestException "HTTPError")])
  ∧ (∀ json,
       ¬ 400 ≤ api_status response < 600 →
       api_json response = Ok json → json !! "href" = None →
       download E self w
       = at_ [EvApiGet (api_url_of self); PrintUnexpected (KeyError "href")])
  ∧ (∀ json download_url head_response s,
       ¬ 400 ≤ api_status response < 600 →
       api_json response = Ok json → json !! "href" = Some download_url →
       net_head E download_url = Ok head_response →
       ¬ 400 ≤ head_status head_response < 600 →
       head_headers head_response !! "content-length" = Some s →
       py_int E s = None →
       download E self w
       = at_ [EvApiGet (api_url_of self); EvHead download_url;
              PrintUnexpected (ValueError s)]).
Proof.
  intros Hapi at_. subst at_. split; [|split].
  - intros Hst.
    rewrite (download_unresolved E self w (RequestException "HTTPError")
               (World (fs w) (pbar w) (trace w ++ [EvApiGet (api_url_of self)]))).
    + simpl. by rewrite <- !app_assoc.
    + rewrite get_download_info_run. cbv zeta. rewrite Hapi.
      by rewrite bool_decide_eq_true_2.
  - intros json Hst Hjson Hhref.
    rewrite (download_unresolved E self w (KeyError "href")
               (World (fs w) (pbar w) (trace w ++ [EvApiGet (api_url_of self)]))).
    + simpl. by rewrite <- !app_assoc.
    + rewrite get_download_info_run. cbv zeta. rewrite Hapi.
      by rewrite bool_decide_eq_false_2, Hjson, Hhref.
  - intros json download_url head_response s Hst Hjson Hhref Hhead Hst' Hlen Hint.
    rewrite (download_unresolved E self w (ValueError s)
               (World (fs w) (pbar w)
                  ((trace w ++ [EvApiGet (api_url_of self)]) ++ [EvHead download_url]))).
    + simpl. by rewrite <- !app_assoc.
    + rewrite get_download_info_run. cbv zeta. rewrite Hapi.
      rewrite bool_decide_eq_false_2, Hjson, Hhref, Hhead by done.
      by rewrite bool_decide_eq_false_2, Hlen, Hint.
Qed.

(** An instance: the probe reports the content length "ten". *)
Lemma resolver_failures_are_reported_witness :
  download (probing {[ "content-length" := "ten" ]} (exact_get abc))
    three_workers empty_world
  = (Ok (), World ∅ 0 [EvApiGet (api_url_of three_workers); EvHead "https://host/d";
                       PrintUnexpected (ValueError "ten")]).
Proof.
  destruct (resolver_failures_are_reported
              (probing {[ "content-length" := "ten" ]} (exact_get abc))
              three_workers empty_world
              (ApiResponse 200 (Ok {[ "href" := "https://host/d" ]}))
              ltac:(reflexivity)) as (_ & _ & Hlen).
  apply (Hlen {[ "href" := "https://host/d" ]} "https://host/d"
           (HeadResponse 200 {[ "content-length" := "ten" ]}) "ten");
    try (vm_compute; reflexivity); simpl; lia.
Defined.

(** X3. A probe without content-length header, or whose accept-ranges
    header is anything but "bytes", makes the job a fallback download:
    after the API request and the probe it prints the fallback notice and
    sends one GET without Range header to the resolved URL, and a completed
    response ends up at <download_location>/<name>, where the name is
    "unknown_file" when the URL carries no filename parameter. *)
Theorem missing_metadata_falls_back (E : env) (self : YandexDiskDownloader)
    (w : world) (response : api_response) (json : gmap string string)
    (download_url : string) (head_response : head_response) :
  net_api E (api_url_of self) = Ok response →
  ¬ 400 ≤ api_status response < 600 →
  api_json response = Ok json → json !! "href" = Some download_url →
  net_head E download_url = Ok head_response →
  ¬ 400 ≤ head_status head_response < 600 →
  head_headers head_response !! "content-length" = None
  ∨ (∃ s z, head_headers head_response !! "content-length" = Some s
            ∧ py_int E s = Some z
            ∧ head_headers head_response !! "accept-ranges" ≠ Some "bytes") →
  let file_name := default "unknown_file" (url_filename E download_url) in
  let sp := os_path_join (download_location self) file_name in
  let out := download E self w in
  (∃ evs, trace out.2
          = trace w ++ [EvApiGet (api_url_of self); EvHead download_url;
                        PrintFallback; EvStreamGet download_url None] ++ evs
          ∧ stream_requests evs = [])
  ∧ (completes (net_get E download_url None) →
       fs out.2 !! sp = Some (delivered (net_get E download_url None))).
Proof.
  intros Hapi Hst Hjson Hhref Hhead Hst' Hmeta file_name sp out. subst out.
  assert (∃ S ranges,
    _get_download_info E self w
    = (Ok (download_url, file_name, S, ranges),
       World (fs w) (pbar w)
         ((trace w ++ [EvApiGet (api_url_of self)]) ++ [EvHead download_url]))
    ∧ (S = 0 ∨ ranges = false)) as (S & ranges & Hinfo & Hcond).
  { rewrite get_download_info_run. cbv zeta. rewrite Hapi.
    rewrite bool_decide_eq_false_2, Hjson, Hhref, Hhead by done.
    rewrite bool_decide_eq_false_2 by done. fold file_name.
    destruct Hmeta as [->|(s & z & -> & -> & Hranges)].
    - eexists _, _. split; [done|]. by left.
    - eexists _, _. split; [done|]. right.
      apply bool_decide_eq_false_2.
      destruct (head_headers head_response !! "accept-ranges") as [x|]; simpl.
      + intros ->. by apply Hranges.
      + done. }
  rewrite (download_fallback_run E self w _ _ _ _ _ Hinfo Hcond).
  cbv zeta. fold sp. simpl trace. unfold completes, delivered.
  destruct (net_get E download_url None) as [r|e]; simpl.
  - case_bool_decide as Hr; simpl.
    + split; [|by intros []]. eexists. split; [by rewrite <- !app_assoc|done].
    + destruct (body_error r) as [e|]; simpl.
      * split; [|by intros []]. eexists.
        split; [by rewrite <- !app_assoc|]. unfold diagnostic.
        by destruct (is_RequestException e).
      * split; [|intros _; apply lookup_insert_eq].
        eexists. split; [by rewrite <- !app_assoc|done].
  - split; [|done]. eexists. split; [by rewrite <- !app_assoc|].
    unfold diagnostic. by destruct (is_RequestException e).
Qed.

(** An instance: the server supports ranges but reports no length. *)
Lemma missing_metadata_falls_back_witness :
  fs (download (probing {[ "accept-ranges" := "bytes" ]} (exact_get abc))
        three_workers empty_world).2 !! "dl/unknown_file"
  = Some abc.
Proof.
  pose proof (missing_metadata_falls_back
                (probing {[ "accept-ranges" := "bytes" ]} (exact_get abc))
                three_workers empty_world
                (ApiResponse 200 (Ok {[ "href" := "https://host/d" ]}))
                {[ "href" := "https://host/d" ]} "https://host/d"
                (HeadResponse 200 {[ "accept-ranges" := "bytes" ]})
                ltac:(reflexivity) ltac:(simpl; lia) ltac:(reflexivity)
                ltac:(vm_compute; reflexivity) ltac:(reflexivity)
                ltac:(simpl; lia) ltac:(left; vm_compute; reflexivity))
    as [_ Hfile].
  apply Hfile. split; [simpl; lia | reflexivity].
Defined.

(** ** Chunk sizes *)

(** X4. The chunks are balanced: every chunk but the last holds
    floor(S/N) bytes, and the last holds floor(S/N) + (S mod N) bytes,
    that is fewer than N bytes more than the others. *)
Theorem chunk_sizes_are_balanced (self : YandexDiskDownloader) (S : Z) :
  0 < S → 1 ≤ num_threads self →
  let N := num_threads self in
  (∀ i : nat, Z.of_nat i < N - 1 →
     ∃ r, plan self S !! i = Some r ∧ range_len r = S `div` N)
  ∧ (∃ r, plan self S !! Z.to_nat (N - 1) = Some r
          ∧ range_len r = S `div` N + S `mod` N)
  ∧ 0 ≤ S `mod` N < N.
Proof.
  intros HS HN N. split; [|split].
  - intros i Hi. eexists. split; [apply plan_lookup; fold N; lia|].
    rewrite chunk_range_inner by (fold N; lia). unfold range_len. simpl.
    subst N. lia.
  - eexists. split; [apply plan_lookup; fold N; lia|].
    rewrite Z2Nat.id by lia. rewrite chunk_range_last.
    unfold range_len. simpl. pose proof (Z.div_mod S N ltac:(lia)).
    subst N. lia.
  - apply Z.mod_pos_bound. lia.
Qed.

(** An instance: ten bytes over three workers are cut 3 + 3 + 4. *)
Lemma chunk_sizes_are_balanced_witness :
  range_len <$> plan three_workers 10 = [3; 3; 4] ∧ 0 ≤ 10 `mod` 3 < 3.
Proof.
  destruct (chunk_sizes_are_balanced three_workers 10 ltac:(lia) ltac:(simpl; lia))
    as (_ & _ & Hmod).
  split; [reflexivity | exact Hmod].
Defined.

(** ** What the workers leave behind *)

Section Effects.
Context (E : env).
Implicit Types (t : string * Z * Z * string) (ts : list (string * Z * Z * string)).
Implicit Types (w : world).

(** What one fetch does to its part store and to the bar, in every
    outcome. *)
Lemma download_chunk_effect t w :
  fs (_download_chunk E t w).2 !! t.2 = part_after (response_of E t) (fs w !! t.2)
  ∧ pbar (_download_chunk E t w).2
    = pbar w + Z.of_nat (length (streamed (response_of E t))).
Proof.
  destruct t as [[[url s] e] pp]. unfold response_of, part_after, streamed.
  rewrite download_chunk_run. cbv zeta. simpl.
  destruct (net_get E url (Some (s, e))) as [response|ex]; simpl.
  - case_bool_decide; simpl.
    + split; [apply lookup_delete_eq | lia].
    + destruct (body_error response) as [ex|]; simpl.
      * destruct (is_RequestException ex); simpl;
          (split; [first [apply lookup_delete_eq | apply lookup_insert_eq] | done]).
      * split; [apply lookup_insert_eq | done].
  - destruct (is_RequestException ex); simpl;
      (split; [first [apply lookup_delete_eq | done] | lia]).
Qed.

(** The same for a list of fetches with distinct part paths: each part
    store is what its own fetch left, nothing else has changed, and the bar
    has advanced by all the bytes streamed. *)
Lemma run_futures_effect ts w :
  NoDup (ts.*2) →
  ∃ w', mapM (λ args, capture (_download_chunk E args)) ts w
          = (Ok (fetch_result E <$> ts), w')
    ∧ (∀ t, t ∈ ts → fs w' !! t.2 = part_after (response_of E t) (fs w !! t.2))
    ∧ (∀ p, (∀ t, t ∈ ts → p ≠ t.2) → fs w' !! p = fs w !! p)
    ∧ pbar w' = pbar w
        + sumZ ((λ t, Z.of_nat (length (streamed (response_of E t)))) <$> ts).
Proof.
  revert w. induction ts as [|t ts IH]; intros w Hnd.
  - exists w. split; [done|]. split; [by intros t ?%elem_of_nil|].
    split; [done|]. simpl. lia.
  - change (NoDup (t.2 :: ts.*2)) in Hnd.
    apply NoDup_cons in Hnd as [Hnotin Hnd].
    pose proof (download_chunk_frame E t w) as (_ & Hfr1 & _).
    pose proof (download_chunk_effect t w) as [Hpart1 Hpb1].
    pose proof (download_chunk_result E t w) as Hr1.
    destruct (_download_chunk E t w) as [r1 w1] eqn:Hrun1. simpl in *.
    destruct (IH w1 Hnd) as (w' & Hrun & Hparts & Hfr & Hpb).
    exists w'. split.
    { cbn [mapM]. unfold mbind at 1. unfold M_bind at 1. unfold capture at 1.
      rewrite Hrun1. unfold mbind at 1. unfold M_bind at 1. rewrite Hrun.
      simpl. by rewrite Hr1. }
    split.
    { intros t' [->|Ht']%elem_of_cons.
      - rewrite Hfr; [done|]. intros t'' Ht'' Heq. apply Hnotin.
        rewrite Heq. by apply list_elem_of_fmap_2.
      - rewrite Hparts by done. f_equal. apply Hfr1. intros Heq. apply Hnotin.
        rewrite <- Heq. by apply list_elem_of_fmap_2. }
    split.
    { intros p Hp. rewrite Hfr by (intros t' Ht'; apply Hp; by right).
      apply Hfr1, Hp. by left. }
    rewrite Hpb, Hpb1. simpl. by rewrite Z.add_assoc.
Qed.

End Effects.

Section PoolEffects.
Context (E : env) (self : YandexDiskDownloader).
Context (w w1 : world) (url file_name : string) (S : Z).
Context (Hinfo : _get_download_info E self w = (Ok (url, file_name, S, true), w1)).
Context (HS : S ≠ 0) (HN : 1 ≤ num_threads self).
Let N := num_threads self.
Let sp := os_path_join (download_location self) file_name.
Let ts := tasks self url sp S (S `div` N).

(** A chunked job, from the files' side.  Whatever the order in which the
    workers finish, the pool leaves a world [w2] in which every part store
    is what its own fetch left and the bar holds all bytes streamed; then
    either every fetch returned [True] and the parts are merged, or the job
    stops there with a diagnostic. *)
Lemma chunked_effect :
  ∃ w2,
    (∀ i, 0 ≤ i < N →
       fs w2 !! part_path_of sp i
       = part_after (response_of E (task_args self url sp S (S `div` N) i))
           (fs w !! part_path_of sp i))
    ∧ (∀ p, (∀ i, 0 ≤ i < N → p ≠ part_path_of sp i) → fs w2 !! p = fs w !! p)
    ∧ pbar w2 = sumZ ((λ t, Z.of_nat (length (streamed (response_of E t)))) <$> ts)
    ∧ (((∀ t, t ∈ ts → fetch_result E t = Ok true)
        ∧ download E self w
          = (Ok (),
             World (remove_parts sp (seqZ 0 N)
                      (<[sp := concat (parts_of sp (seqZ 0 N) (fs w2))]> (fs w2)))
                   (pbar w2)
                   (trace w2 ++ [PrintMerging N sp; PrintCleaning; PrintDownloadComplete])))
       ∨ ((∃ t, t ∈ ts ∧ fetch_result E t ≠ Ok true)
          ∧ ∃ e, download E self w
                 = (Ok (), World (fs w2) (pbar w2) (trace w2 ++ [PrintUnexpected e]))
              ∧ ((e = ConnectionError
                        "One or more parts failed to download. Aborting merge."
                  ∧ ∀ t, t ∈ ts → ∃ b, fetch_result E t = Ok b)
                 ∨ ∃ t, t ∈ ts ∧ fetch_result E t = Raise e))).
Proof.
  destruct (get_download_info_frame _ _ _ _ _ Hinfo) as (Hfs & _ & _).
  pose proof (as_completed_perm E ts) as Hperm.
  assert (Hnd : NoDup (as_completed E ts).*2)
    by (rewrite Hperm; apply tasks_NoDup).
  destruct (run_futures_effect E (as_completed E ts)
              (World (fs w1) 0 (trace w1 ++ [PrintDownloading file_name S N])) Hnd)
    as (w2 & Hrun & Hparts & Hfr & Hpb).
  destruct (collect_results (fetch_result E <$> as_completed E ts) w2)
    as (r & Hcol & Hr).
  simpl in Hparts, Hfr, Hpb.
  assert (Hpool : run_pool E self ts
                    (World (fs w1) 0 (trace w1 ++ [PrintDownloading file_name S N]))
                  = (r, w2)).
  { unfold run_pool. rewrite bool_decide_eq_false_2 by (fold N; lia).
    unfold mbind at 1. unfold M_bind at 1. by rewrite Hrun, Hcol. }
  rewrite download_run, (download_body_chunked E self w w1 url file_name S true)
    by done.
  fold N sp ts. rewrite Hpool.
  exists w2.
  assert (Hpart : ∀ i, 0 ≤ i < N →
            fs w2 !! part_path_of sp i
            = part_after (response_of E (task_args self url sp S (S `div` N) i))
                (fs w !! part_path_of sp i)).
  { intros i Hi.
    assert (Hin : task_args self url sp S (S `div` N) i ∈ as_completed E ts)
      by (rewrite Hperm; apply elem_of_tasks; eauto).
    specialize (Hparts _ Hin). rewrite task_args_part, Hfs in Hparts. done. }
  split; [done|]. split.
  { intros p Hp. rewrite Hfr, Hfs; [done|].
    intros t Ht. rewrite Hperm in Ht.
    apply elem_of_tasks in Ht as (i & Hi & ->). rewrite task_args_part.
    by apply Hp. }
  split.
  { rewrite Hpb, Z.add_0_l. apply sumZ_perm. by rewrite Hperm. }
  destruct r as [bs|e].
  - destruct (forallb id bs) eqn:Hbs; cbn [negb].
    + left. symmetry in Hr.
      pose proof (proj1 (forallb_results _ _ Hr) Hbs) as Htrue.
      assert (Hall : ∀ t, t ∈ ts → fetch_result E t = Ok true).
      { intros t Ht. apply Htrue, list_elem_of_fmap. exists t. by rewrite Hperm. }
      split; [done|]. unfold mbind, M_bind.
      rewrite merge_run_ok; [simpl; by rewrite <- app_assoc|].
      intros i Hi. rewrite Hpart by done.
      assert (Hin : task_args self url sp S (S `div` N) i ∈ ts)
        by (apply elem_of_tasks; eauto).
      specialize (Hall _ Hin). apply fetch_result_true in Hall.
      unfold completes, part_after in *.
      destruct (response_of E _) as [response|]; [|done].
      destruct Hall as [Hst ->]. rewrite bool_decide_eq_false_2 by done. eauto.
    + right. symmetry in Hr. split.
      * apply (forallb_results_false _ _ Hr) in Hbs.
        apply list_elem_of_fmap in Hbs as (t & Ht & Hin).
        exists t. split; [by rewrite <- Hperm | by rewrite <- Ht].
      * eexists. split; [simpl; reflexivity|]. left. split; [done|].
        intros t Ht. rewrite <- Hperm in Ht.
        assert (Hin : fetch_result E t ∈ Ok <$> bs)
          by (rewrite Hr; by apply list_elem_of_fmap_2).
        apply list_elem_of_fmap in Hin as (b & -> & _). eauto.
  - right. apply list_elem_of_fmap in Hr as (t & Ht & Hin).
    rewrite Hperm in Hin. split.
    + exists t. split; [done|]. by rewrite <- Ht.
    + exists e. split.
      * simpl. by rewrite (fetch_result_raise E t e).
      * right. eauto.
Qed.

End PoolEffects.

Lemma part_after_true E t old :
  fetch_result E t = Ok true →
  part_after (response_of E t) old = Some (delivered (response_of E t)).
Proof.
  intros Htrue%fetch_result_true. unfold completes, part_after, delivered in *.
  destruct (response_of E t) as [response|]; [|done].
  destruct Htrue as [Hst ->]. by rewrite bool_decide_eq_false_2.
Qed.

Lemma part_after_false E t old :
  fetch_result E t = Ok false → part_after (response_of E t) old = None.
Proof.
  intros Hfalse%fetch_result_false. unfold transport_failure, part_after in *.
  destruct (response_of E t) as [response|e]; [|by rewrite Hfalse].
  case_bool_decide; [done|].
  destruct Hfalse as [?|(e & -> & ->)]; done.
Qed.

Lemma part_after_raise E t e old :
  fetch_result E t = Raise e →
  part_after (response_of E t) old
  = match response_of E t with
    | Ok response => Some (concat (body response))
    | Raise _ => old
    end.
Proof.
  destruct t as [[[url s] e'] pp]. unfold fetch_result, response_of, part_after.
  rewrite download_chunk_run. cbv zeta. simpl.
  destruct (net_get E url (Some (s, e'))) as [response|ex].
  - case_bool_decide; [done|].
    destruct (body_error response) as [ex|]; [|done].
    by destruct (is_RequestException ex).
  - by destruct (is_RequestException ex).
Qed.

(** X5. A job that aborts because a chunk failed cleans nothing up: when
    [download] returns, the part store of every chunk whose fetch returned
    [True] is still on disk with the bytes it received, the part store of
    every chunk whose fetch returned [False] is absent, and no path other
    than the N part paths has changed. *)
Theorem aborted_job_keeps_fetched_parts (E : env) (self : YandexDiskDownloader)
    (w w1 : world) (url file_name : string) (S : Z) (t : string * Z * Z * string) :
  _get_download_info E self w = (Ok (url, file_name, S, true), w1) →
  S ≠ 0 → 1 ≤ num_threads self →
  let N := num_threads self in
  let sp := os_path_join (download_location self) file_name in
  let ts := tasks self url sp S (S `div` N) in
  t ∈ ts → fetch_result E t ≠ Ok true →
  let out := download E self w in
  (∀ t', t' ∈ ts → fetch_result E t' = Ok true →
     fs out.2 !! t'.2 = Some (delivered (response_of E t')))
  ∧ (∀ t', t' ∈ ts → fetch_result E t' = Ok false → fs out.2 !! t'.2 = None)
  ∧ (∀ p, (∀ i, 0 ≤ i < N → p ≠ part_path_of sp i) → fs out.2 !! p = fs w !! p).
Proof.
  intros Hinfo HS HN N sp ts Ht Hne out. subst out.
  destruct (chunked_effect E self w w1 url file_name S Hinfo HS HN)
    as (w2 & Hparts & Hfr & _ & Hcase).
  fold N sp ts in Hparts, Hfr, Hcase.
  destruct Hcase as [(Hall & _)|(_ & e & -> & _)]; [by destruct Hne; apply Hall|].
  simpl.
  split; [|split; [|done]].
  - intros t' (i & Hi & ->)%elem_of_tasks Htrue.
    rewrite task_args_part, Hparts by done. by apply part_after_true.
  - intros t' (i & Hi & ->)%elem_of_tasks Hfalse.
    rewrite task_args_part, Hparts by done. by apply part_after_false.
Qed.

(** An instance: the second of three chunks fails; parts 0 and 2 stay. *)
Lemma aborted_job_keeps_fetched_parts_witness :
  fs (download (serving abc (flaky_get abc 3)) three_workers empty_world).2
    !! "dl/a.bin.part0" = Some ["a"; "b"; "c"]%byte
  ∧ fs (download (serving abc (flaky_get abc 3)) three_workers empty_world).2
      !! "dl/a.bin.part1" = None.
Proof.
  pose proof (aborted_job_keeps_fetched_parts (serving abc (flaky_get abc 3))
    three_workers empty_world
    (World ∅ 0 [EvApiGet (api_url_of three_workers);
                EvHead "https://host/d?filename=a.bin"])
    "https://host/d?filename=a.bin" "a.bin" 10
    ("https://host/d?filename=a.bin", 3, 5, "dl/a.bin.part1")
    ltac:(vm_compute; reflexivity) ltac:(done) ltac:(simpl; lia)
    ltac:(in_list) ltac:(vm_compute; discriminate))
    as (Hkept & Hgone & _).
  split.
  - etrans.
    + apply (Hkept ("https://host/d?filename=a.bin", 0, 2, "dl/a.bin.part0"));
        [in_list | vm_compute; reflexivity].
    + vm_compute. reflexivity.
  - apply (Hgone ("https://host/d?filename=a.bin", 3, 5, "dl/a.bin.part1"));
      [in_list | vm_compute; reflexivity].
Defined.

(** X6. An exception that is not a [RequestException] is not caught by the
    fetcher.  When the fetch of a chunk raises one, the job prints it (or
    the one of another worker) as an unexpected error instead of the abort
    message, does not merge and leaves the destination as it was; the part
    store of that chunk is left on disk with the bytes written before the
    exception, when the request had been answered. *)
Theorem worker_exception_aborts_job (E : env) (self : YandexDiskDownloader)
    (w w1 : world) (url file_name : string) (S : Z)
    (t : string * Z * Z * string) (e0 : exn) :
  _get_download_info E self w = (Ok (url, file_name, S, true), w1) →
  S ≠ 0 → 1 ≤ num_threads self →
  let N := num_threads self in
  let sp := os_path_join (download_location self) file_name in
  let ts := tasks self url sp S (S `div` N) in
  t ∈ ts → fetch_result E t = Raise e0 →
  let out := download E self w in
  (∃ e t', t' ∈ ts ∧ fetch_result E t' = Raise e
           ∧ last (trace out.2) = Some (PrintUnexpected e))
  ∧ fs out.2 !! sp = fs w !! sp
  ∧ fs out.2 !! t.2 = match response_of E t with
                      | Ok response => Some (concat (body response))
                      | Raise _ => fs w !! t.2
                      end.
Proof.
  intros Hinfo HS HN N sp ts Ht Hraise out. subst out.
  destruct (chunked_effect E self w w1 url file_name S Hinfo HS HN)
    as (w2 & Hparts & Hfr & _ & Hcase).
  fold N sp ts in Hparts, Hfr, Hcase.
  destruct Hcase as [(Hall & _)|(_ & e & -> & He)].
  { rewrite (Hall t Ht) in Hraise. done. }
  simpl. split; [|split].
  - destruct He as [[_ Hok]|(t' & Ht' & Hraise')].
    + destruct (Hok t Ht) as [b Hb]. rewrite Hb in Hraise. done.
    + exists e, t'. split; [done|]. split; [done|]. apply last_snoc.
  - apply Hfr. intros i _. apply not_eq_sym, part_path_ne.
  - apply elem_of_tasks in Ht as (i & Hi & ->).
    rewrite task_args_part, Hparts by done. by eapply part_after_raise.
Qed.

(** An instance: reading the body of the second chunk fails with an
    error that is not a request error, after one byte. *)
Lemma worker_exception_aborts_job_witness :
  fs (download (serving abc (crashing_get abc 3)) three_workers empty_world).2
    !! "dl/a.bin" = None
  ∧ fs (download (serving abc (crashing_get abc 3)) three_workers empty_world).2
      !! "dl/a.bin.part1" = Some ["d"%byte].
Proof.
  pose proof (worker_exception_aborts_job (serving abc (crashing_get abc 3))
    three_workers empty_world
    (World ∅ 0 [EvApiGet (api_url_of three_workers);
                EvHead "https://host/d?filename=a.bin"])
    "https://host/d?filename=a.bin" "a.bin" 10
    ("https://host/d?filename=a.bin", 3, 5, "dl/a.bin.part1")
    (OtherException "MemoryError")
    ltac:(vm_compute; reflexivity) ltac:(done) ltac:(simpl; lia)
    ltac:(in_list) ltac:(vm_compute; reflexivity))
    as (_ & Hfinal & Hpart).
  split.
  - etrans; [exact Hfinal | vm_compute; reflexivity].
  - etrans; [exact Hpart | vm_compute; reflexivity].
Defined.

(** X7. The order in which the workers finish does not matter to what a
    chunked job leaves behind: with any other scheduler the job ends with
    the same files and the same bar, and succeeds in the one case exactly
    when it succeeds in the other. *)
Theorem completion_order_is_irrelevant (E : env) (self : YandexDiskDownloader)
    (w w1 : world) (url file_name : string) (S : Z) (sch : nat → nat) :
  _get_download_info E self w = (Ok (url, file_name, S, true), w1) →
  S ≠ 0 → 1 ≤ num_threads self →
  let out := download E self w in
  let out' := download (with_scheduler E sch) self w in
  fs out'.2 = fs out.2
  ∧ pbar out'.2 = pbar out.2
  ∧ (job_succeeded out'.2 ↔ job_succeeded out.2).
Proof.
  intros Hinfo HS HN out out'. subst out out'.
  set (N := num_threads self).
  set (sp := os_path_join (download_location self) file_name).
  set (ts := tasks self url sp S (S `div` N)).
  destruct (chunked_effect E self w w1 url file_name S Hinfo HS HN)
    as (w2 & Hparts & Hfr & Hpb & Hcase).
  destruct (chunked_effect (with_scheduler E sch) self w w1 url file_name S
              Hinfo HS HN)
    as (w2' & Hparts' & Hfr' & Hpb' & Hcase').
  fold N sp ts in Hparts, Hfr, Hpb, Hcase, Hparts', Hfr', Hpb', Hcase'.
  change (∀ i, 0 ≤ i < N →
            fs w2' !! part_path_of sp i
            = part_after (response_of E (task_args self url sp S (S `div` N) i))
                (fs w !! part_path_of sp i)) in Hparts'.
  change (pbar w2'
          = sumZ ((λ t, Z.of_nat (length (streamed (response_of E t)))) <$> ts))
    in Hpb'.
  assert (Hfs : fs w2' = fs w2).
  { apply map_eq. intros p.
    destruct (decide (p ∈ part_path_of sp <$> seqZ 0 N)) as [Hin|Hout].
    - apply list_elem_of_fmap in Hin as (i & -> & Hi%elem_of_seqZ).
      rewrite Hparts, Hparts' by lia. done.
    - rewrite Hfr, Hfr'; [done|..];
        intros i Hi ->; apply Hout, list_elem_of_fmap_2, elem_of_seqZ; lia. }
  assert (Hpbar : pbar w2' = pbar w2) by (by rewrite Hpb, Hpb').
  assert (Hsame : ∀ t, fetch_result (with_scheduler E sch) t = fetch_result E t)
    by reflexivity.
  destruct Hcase as [(Hall & ->)|((t & Ht & Hne) & e & -> & _)];
    destruct Hcase' as [(Hall' & ->)|((t' & Ht' & Hne') & e' & -> & _)]; simpl.
  - rewrite Hfs, Hpbar. split; [done|]. split; [done|].
    unfold job_succeeded. simpl. by rewrite !last_app.
  - destruct Hne'. rewrite Hsame. by apply Hall.
  - destruct Hne. rewrite <- Hsame. by apply Hall'.
  - split; [done|]. split; [done|].
    unfold job_succeeded. simpl. by rewrite !last_snoc.
Qed.

(** An instance: the ten-byte job, with the workers finishing in the
    order the scheduler [λ _, 0] picks instead. *)
Lemma completion_order_is_irrelevant_witness :
  fs (download (with_scheduler (serving abc (flaky_get abc 3)) (λ _, 0%nat))
        three_workers empty_world).2
  = fs (download (serving abc (flaky_get abc 3)) three_workers empty_world).2.
Proof.
  apply (completion_order_is_irrelevant (serving abc (flaky_get abc 3))
    three_workers empty_world
    (World ∅ 0 [EvApiGet (api_url_of three_workers);
                EvHead "https://host/d?filename=a.bin"])
    "https://host/d?filename=a.bin" "a.bin" 10 (λ _, 0%nat)
    ltac:(vm_compute; reflexivity) ltac:(done) ltac:(simpl; lia)).
Defined.

(** X8. Whether a chunked job succeeds or aborts, when [download] returns
    the bar holds the number of bytes all workers streamed, including the
    bytes of parts that were then deleted because their fetch failed. *)
Theorem bar_counts_all_streamed_bytes (E : env) (self : YandexDiskDownloader)
    (w w1 : world) (url file_name : string) (S : Z) :
  _get_download_info E self w = (Ok (url, file_name, S, true), w1) →
  S ≠ 0 → 1 ≤ num_threads self →
  let sp := os_path_join (download_location self) file_name in
  let ts := tasks self url sp S (S `div` num_threads self) in
  pbar (download E self w).2
  = sumZ ((λ t, Z.of_nat (length (streamed (response_of E t)))) <$> ts).
Proof.
  intros Hinfo HS HN sp ts.
  destruct (chunked_effect E self w w1 url file_name S Hinfo HS HN)
    as (w2 & _ & _ & Hpb & Hcase).
  fold sp ts in Hpb, Hcase.
  by destruct Hcase as [(_ & ->)|(_ & e & -> & _)].
Qed.

(** An instance: the second chunk breaks after one byte; the bar stands
    at 3 + 1 + 4 bytes while only 7 bytes are on disk. *)
Lemma bar_counts_all_streamed_bytes_witness :
  pbar (download (serving abc (flaky_get abc 3)) three_workers empty_world).2 = 8.
Proof.
  etrans.
  - apply (bar_counts_all_streamed_bytes (serving abc (flaky_get abc 3))
      three_workers empty_world
      (World ∅ 0 [EvApiGet (api_url_of three_workers);
                  EvHead "https://host/d?filename=a.bin"])
      "https://host/d?filename=a.bin" "a.bin" 10
      ltac:(vm_compute; reflexivity) ltac:(done) ltac:(simpl; lia)).
  - vm_compute. reflexivity.
Defined.

(** ** More on the merge step *)

Lemma remove_parts_idemp final l (m : gmap string bytes) :
  remove_parts final l (remove_parts final l m) = remove_parts final l m.
Proof.
  induction l as [|i l IH]; simpl; [done|].
  by rewrite remove_parts_delete, delete_delete_eq, IH.
Qed.

(** X9. The merge step opens the final file before it looks at any part.
    So when part 0 is missing the step raises and leaves an empty final
    file, whatever was at that path before; in particular, merging a
    second time after a successful merge (the parts are gone by then)
    raises the missing-part error and empties the final file. *)
Theorem merge_is_not_repeatable :
  (∀ (final : string) (N : Z) (w : world),
     1 ≤ N → fs w !! part_path_of final 0 = None →
     let out := _merge_files final N w in
     out.1 = Raise (FileNotFoundError (part_path_of final 0))
     ∧ fs out.2 !! final = Some [])
  ∧ (∀ (final : string) (N : Z) (w : world),
       1 ≤ N → (∀ i, 0 ≤ i < N → is_Some (fs w !! part_path_of final i)) →
       let again := _merge_files final N (_merge_files final N w).2 in
       again.1 = Raise (FileNotFoundError (part_path_of final 0))
       ∧ fs again.2 !! final = Some []).
Proof.
  assert (Hfirst : ∀ (final : string) (N : Z) (w : world),
     1 ≤ N → fs w !! part_path_of final 0 = None →
     (_merge_files final N w).1 = Raise (FileNotFoundError (part_path_of final 0))
     ∧ fs (_merge_files final N w).2 !! final = Some []).
  { intros final N w HN Hmissing.
    rewrite (merge_run_missing final N 0) by (done || lia).
    split; [done|]. simpl.
    rewrite remove_parts_lookup_notin
      by (intros i _; apply not_eq_sym, part_path_ne).
    apply lookup_insert_eq. }
  split; [exact Hfirst|].
  intros final N w HN Hall again. subst again. apply Hfirst; [done|].
  rewrite merge_run_ok by done. simpl.
  apply remove_parts_lookup_in, elem_of_seqZ. lia.
Qed.

(** An instance: three parts are merged, then merged again. *)
Lemma merge_is_not_repeatable_witness :
  fs (_merge_files "f" 3 three_parts).2 !! "f" = Some ["a"; "b"; "c"]%byte
  ∧ fs (_merge_files "f" 3 (_merge_files "f" 3 three_parts).2).2 !! "f" = Some [].
Proof.
  destruct merge_is_not_repeatable as [_ Hagain].
  split; [vm_compute; reflexivity|].
  apply (Hagain "f" 3 three_parts); [lia|].
  intros i Hi.
  assert (i = 0 ∨ i = 1 ∨ i = 2) as [->|[->| ->]] by lia; vm_compute; eauto.
Defined.

(** X10. The merge step keeps to its own files: it leaves the bar alone,
    prints the merge and the cleanup notice and nothing else, and changes
    no path other than the final path and the part paths 0..N-1; a stale
    part with an index outside 0..N-1 survives it.  With no part to merge
    (N <= 0) it returns, leaving an empty final file. *)
Theorem merge_touches_only_its_files (final : string) (N : Z) (w : world) :
  let out := _merge_files final N w in
  pbar out.2 = pbar w
  ∧ trace out.2 = trace w ++ [PrintMerging N final; PrintCleaning]
  ∧ (∀ p, p ≠ final → (∀ i, 0 ≤ i < N → p ≠ part_path_of final i) →
       fs out.2 !! p = fs w !! p)
  ∧ (∀ j, ¬ 0 ≤ j < N →
       fs out.2 !! part_path_of final j = fs w !! part_path_of final j)
  ∧ (N ≤ 0 → out.1 = Ok () ∧ fs out.2 !! final = Some []).
Proof.
  intros out. subst out.
  assert (∃ r content,
    _merge_files final N w
    = (r, World (remove_parts final (seqZ 0 N) (<[final := content]> (fs w)))
            (pbar w) (trace w ++ [PrintMerging N final; PrintCleaning]))
    ∧ (N ≤ 0 → r = Ok () ∧ content = [])) as (r & content & -> & Hempty).
  { destruct (first_failing (λ j, is_Some (fs w !! part_path_of final j)) N)
      as [Hall|(k & Hk & Hnone & Hbelow)].
    - eexists _, _. split; [by apply merge_run_ok|].
      intros HN. split; [done|]. by rewrite seqZ_nil.
    - eexists _, _. split.
      + apply (merge_run_missing final N k); [done..|]. by apply eq_None_not_Some.
      + lia. }
  simpl.
  assert (Hframe : ∀ p, p ≠ final → (∀ i, 0 ≤ i < N → p ≠ part_path_of final i) →
            remove_parts final (seqZ 0 N) (<[final := content]> (fs w)) !! p
            = fs w !! p).
  { intros p Hp Hparts.
    rewrite remove_parts_lookup_notin
      by (intros i Hi%elem_of_seqZ; apply Hparts; lia).
    by rewrite lookup_insert_ne. }
  split; [done|]. split; [done|]. split; [exact Hframe|]. split.
  - intros j Hj. apply Hframe; [apply part_path_ne|].
    intros i Hi Heq. apply part_path_inj in Heq. lia.
  - intros HN. destruct (Hempty HN) as [-> ->]. split; [done|].
    rewrite seqZ_nil by done. simpl. apply lookup_insert_eq.
Qed.

(** An instance: merging three parts leaves the stale part 7 alone. *)
Lemma merge_touches_only_its_files_witness :
  fs (_merge_files "f" 3 three_parts).2 !! "f.part7" = Some ["z"%byte].
Proof.
  destruct (merge_touches_only_its_files "f" 3 three_parts) as (_ & _ & _ & Hstale & _).
  etrans; [apply (Hstale 7); lia | vm_compute; reflexivity].
Defined.

(** X11. The cleanup loop of lines 79-82 never raises, and running it
    again on what it left changes nothing: a part that is not there is
    skipped, not an error. *)
Theorem cleanup_is_idempotent (final : string) (l : list Z) (w : world) :
  let once := for_each l (cleanup_part final) w in
  once.1 = Ok ()
  ∧ (∀ i, i ∈ l → fs once.2 !! part_path_of final i = None)
  ∧ for_each l (cleanup_part final) once.2 = (Ok (), once.2).
Proof.
  intros once. subst once. rewrite cleanup_loop. simpl.
  split; [done|]. split; [intros i Hi; by apply remove_parts_lookup_in|].
  rewrite cleanup_loop. simpl. by rewrite remove_parts_idemp.
Qed.

(** An instance: cleaning parts 0..2 of "f" where only part 0 exists. *)
Lemma cleanup_is_idempotent_witness :
  fs (for_each (seqZ 0 3) (cleanup_part "f") part0_only).2 !! "f.part0" = None.
Proof.
  destruct (cleanup_is_idempotent "f" (seqZ 0 3) part0_only) as (_ & Hgone & _).
  apply (Hgone 0). in_list.
Defined.

(** ** Edge cases of the orchestrator *)

(** X12. A downloader with no worker cannot take the chunked path.  With
    num_threads = 0 the division of line 98 raises, and [download] prints
    the unexpected [ZeroDivisionError]; with a negative num_threads the
    pool cannot be created, and [download] prints the unexpected
    [ValueError].  In both cases no request for the file is sent and no
    file changes. *)
Theorem no_worker_no_download (E : env) (self : YandexDiskDownloader)
    (w w1 : world) (url file_name : string) (S : Z) :
  _get_download_info E self w = (Ok (url, file_name, S, true), w1) →
  S ≠ 0 →
  (num_threads self = 0 →
     download E self w
     = (Ok (), World (fs w) (pbar w)
                 (trace w1 ++ [PrintDownloading file_name S 0;
                               PrintUnexpected ZeroDivisionError])))
  ∧ (num_threads self < 0 →
     download E self w
     = (Ok (), World (fs w) 0
                 (trace w1 ++ [PrintDownloading file_name S (num_threads self);
                               PrintUnexpected
                                 (ValueError "max_workers must be greater than 0")]))).
Proof.
  intros Hinfo HS.
  destruct (get_download_info_frame _ _ _ _ _ Hinfo) as (Hfs & Hpb & _).
  assert (Hbody : download_body E self w
    = (emit (PrintDownloading file_name S (num_threads self)) ;;
       chunk_size ← (if bool_decide (num_threads self = 0)
                     then raise ZeroDivisionError
                     else mret (S `div` num_threads self)) ;
       tqdm_new ;;
       results ← run_pool E self
                   (tasks self url (os_path_join (download_location self) file_name)
                      S chunk_size) ;
       if negb (forallb id results)
       then raise (ConnectionError
                     "One or more parts failed to download. Aborting merge.")
       else
         _merge_files (os_path_join (download_location self) file_name)
           (num_threads self) ;;
         emit PrintDownloadComplete) w1).
  { unfold download_body. unfold mbind at 1. unfold M_bind at 1.
    rewrite Hinfo. by rewrite bool_decide_eq_false_2. }
  split.
  - intros H0. rewrite download_run, Hbody.
    unfold mbind at 1. unfold M_bind at 1. cbn [emit].
    unfold mbind at 1. unfold M_bind at 1.
    rewrite bool_decide_eq_true_2 by done. simpl.
    by rewrite H0, Hfs, Hpb, <- app_assoc.
  - intros Hneg. rewrite download_run, Hbody.
    unfold mbind at 1. unfold M_bind at 1. cbn [emit].
    unfold mbind at 1. unfold M_bind at 1.
    rewrite bool_decide_eq_false_2 by lia.
    unfold mret at 1. unfold M_ret at 1.
    unfold mbind at 1. unfold M_bind at 1. cbn [tqdm_new fs pbar trace].
    unfold mbind at 1. unfold M_bind at 1. unfold run_pool.
    rewrite bool_decide_eq_true_2 by lia. simpl.
    by rewrite Hfs, <- app_assoc.
Qed.

(** An instance: ten bytes, range support, num_threads = 0. *)
Lemma no_worker_no_download_witness :
  download (serving abc (exact_get abc)) (Downloader "link" "dl" 0) empty_world
  = (Ok (), World ∅ 0
       [EvApiGet (api_url_of three_workers); EvHead "https://host/d?filename=a.bin";
        PrintDownloading "a.bin" 10 0; PrintUnexpected ZeroDivisionError]).
Proof.
  apply (no_worker_no_download (serving abc (exact_get abc))
           (Downloader "link" "dl" 0) empty_world
           (World ∅ 0 [EvApiGet (api_url_of three_workers);
                       EvHead "https://host/d?filename=a.bin"])
           "https://host/d?filename=a.bin" "a.bin" 10
           ltac:(vm_compute; reflexivity) ltac:(done)).
  reflexivity.
Defined.

(** X13. The destination is os.path.join(download_location, file_name)
    (POSIX), and the file name comes from the resolved URL.  A file name
    that begins with "/" therefore replaces the download location: a
    completed fallback download is written at the path given by the file
    name alone. *)
Theorem absolute_file_name_replaces_location (E : env) (self : YandexDiskDownloader)
    (w w1 : world) (url file_name : string) (S : Z) (supports_ranges : bool) :
  _get_download_info E self w = (Ok (url, file_name, S, supports_ranges), w1) →
  starts_with_slash file_name = true →
  S = 0 ∨ supports_ranges = false →
  completes (net_get E url None) →
  let out := download E self w in
  fs out.2 !! file_name = Some (delivered (net_get E url None))
  ∧ ∀ p, p ≠ file_name → fs out.2 !! p = fs w !! p.
Proof.
  intros Hinfo Habs Hcond Hdone out. subst out.
  rewrite (download_fallback_run E self w w1 url file_name S supports_ranges
             Hinfo Hcond).
  cbv zeta. unfold os_path_join. rewrite Habs.
  unfold completes, delivered in *.
  destruct (net_get E url None) as [response|]; [|done].
  destruct Hdone as [Hst ->]. rewrite bool_decide_eq_false_2 by done. simpl.
  split; [apply lookup_insert_eq|]. intros p Hp. by apply lookup_insert_ne.
Qed.

(** An instance: the URL names the file "/tmp/x". *)
Lemma absolute_file_name_replaces_location_witness :
  let E := Env (λ _, Ok (ApiResponse 200 (Ok {[ "href" := "https://host/d" ]})))
               (λ _, Ok (HeadResponse 200 ∅))
               (λ _, exact_get abc) (λ _, Some "/tmp/x") (λ _, None) (λ _, 0%nat) in
  fs (download E three_workers empty_world).2 !! "/tmp/x" = Some abc.
Proof.
  intros E.
  apply (absolute_file_name_replaces_location E three_workers empty_world
           (World ∅ 0 [EvApiGet (api_url_of three_workers); EvHead "https://host/d"])
           "https://host/d" "/tmp/x" 0 false
           ltac:(vm_compute; reflexivity) ltac:(reflexivity) ltac:(by left)
           ltac:(split; [simpl; lia | reflexivity])).
Defined.

(** X14. A chunked job succeeds exactly when the response of every chunk
    completes without error.  It then leaves no part store behind and has
    changed no path besides the destination and the part paths. *)
Theorem chunked_job_succeeds_iff (E : env) (self : YandexDiskDownloader)
    (w w1 : world) (url file_name : string) (S : Z) :
  _get_download_info E self w = (Ok (url, file_name, S, true), w1) →
  S ≠ 0 → 1 ≤ num_threads self →
  let N := num_threads self in
  let sp := os_path_join (download_location self) file_name in
  let ts := tasks self url sp S (S `div` N) in
  let out := download E self w in
  (job_succeeded out.2 ↔ ∀ t, t ∈ ts → completes (response_of E t))
  ∧ (job_succeeded out.2 →
     (∀ i, 0 ≤ i < N → fs out.2 !! part_path_of sp i = None)
     ∧ (∀ p, p ≠ sp → (∀ i, 0 ≤ i < N → p ≠ part_path_of sp i) →
          fs out.2 !! p = fs w !! p)).
Proof.
  intros Hinfo HS HN N sp ts out.
  assert (Hiff : job_succeeded out.2 ↔ ∀ t, t ∈ ts → fetch_result E t = Ok true).
  { split.
    - apply (job_succeeded_all_fetched E self w w1 url file_name S Hinfo HS HN).
    - intros Hall.
      apply (all_fetched_run E self w w1 url file_name S Hinfo HS HN Hall). }
  split.
  - rewrite Hiff. split; intros Hall t Ht; apply fetch_result_true; by apply Hall.
  - intros Hsucc. pose proof (proj1 Hiff Hsucc) as Hall.
    destruct (all_fetched_run E self w w1 url file_name S Hinfo HS HN Hall)
      as (_ & _ & _ & Hgone & Hframe).
    by split.
Qed.

(** An instance: the ten-byte job with exact responses leaves one file. *)
Lemma chunked_job_succeeds_iff_witness :
  job_succeeded (download (serving abc (exact_get abc)) three_workers empty_world).2
  ∧ fs (download (serving abc (exact_get abc)) three_workers empty_world).2
      !! "dl/a.bin.part2" = None.
Proof.
  destruct (chunked_job_succeeds_iff (serving abc (exact_get abc))
    three_workers empty_world
    (World ∅ 0 [EvApiGet (api_url_of three_workers);
                EvHead "https://host/d?filename=a.bin"])
    "https://host/d?filename=a.bin" "a.bin" 10
    ltac:(vm_compute; reflexivity) ltac:(done) ltac:(simpl; lia))
    as [[_ Hback] Hclean].
  assert (Hsucc : job_succeeded
            (download (serving abc (exact_get abc)) three_workers empty_world).2).
  { apply Hback. intros t Ht. vm_compute in Ht.
    repeat (apply elem_of_cons in Ht as [->|Ht];
            [split; [simpl; lia | reflexivity]|]).
    apply elem_of_nil in Ht. destruct Ht. }
  split; [exact Hsucc|].
  destruct (Hclean Hsucc) as [Hgone _].
  apply (Hgone 2). simpl. lia.
Defined.
